(** * EVE Production Tracker: module registry and blueprint-ownership overlay

    A shallow embedding of [core/module_registry.py] (class [ModuleRegistry])
    and of the ownership logic of [core/gui/blueprints_gui.py]
    (class [BlueprintManager]), with the properties of their specification.

    Python objects are shared by reference between the registry, the GUI's
    [discovered_modules] and the callers, so entity objects live in a store
    indexed by locations and the dictionaries hold locations.  Python
    dictionaries iterate in insertion order: the registry and
    [discovered_modules] are association lists with unique keys.  The
    persisted overlay [blueprint_config] is only ever read by key, so it is a
    finite map of finite maps. *)

From stdpp Require Import gmap strings list fin_maps sorting.
From Stdlib Require Import ZArith Ascii String DecimalString.

Set Warnings "-clear-no-such-hyp".

Local Open Scope Z_scope.
Local Open Scope string_scope.

(** ** Python values and strings *)

(** The values an ownership attribute may hold: the registry's filters
    distinguish [bool] from [str] with [isinstance]; anything else is
    [PyOther]. *)
Inductive pyval : Type :=
  | PyBool (b : bool)
  | PyStr (s : string)
  | PyOther.

(** [str.lower()] restricted to ASCII: the letters [A]..[Z] are lowered and
    every other byte is kept.  On text that is all ASCII this is
    [str.lower()]; on other text it is used only for the comparison
    [x.lower() == "owned"] of the registry's filters, where it is exact on
    UTF-8 encoded text (no character outside ASCII lowers to a letter of
    ["owned"]).  [str.lower()] on arbitrary text is the builtin [str_lower]
    of the class [Externals] below. *)
Definition lower_ascii (c : ascii) : ascii :=
  let n := nat_of_ascii c in
  if ((65 <=? n)%nat && (n <=? 90)%nat)%bool then ascii_of_nat (n + 32) else c.

Fixpoint py_lower (s : string) : string :=
  match s with
  | EmptyString => EmptyString
  | String c s' => String (lower_ascii c) (py_lower s')
  end.

(** Text made of ASCII characters only. *)
Fixpoint is_ascii (s : string) : bool :=
  match s with
  | EmptyString => true
  | String c s' => (nat_of_ascii c <? 128)%nat && is_ascii s'
  end.

(** Truthiness of an optional string argument: [None] and [""] are falsy. *)
Definition str_truthy (o : option string) : bool :=
  match o with
  | None => false
  | Some s => negb (String.eqb s "")
  end.

(** ** Entities

    One record for every entity class ([ShipModule], [CapitalShipModule],
    [ComponentModule], ...).  The GUI attaches attributes dynamically and
    tests them with [hasattr]: an attribute that may be missing
    ([is_capital_ship], [owned_status], [blueprint_owned] and the [_var]
    fields) is an [option], [None] meaning that the object does not have
    it.  [faction] and [ship_type] are read without a test by the registry
    on every ship, starting with [register_ship], so an object without them
    cannot be registered as a ship: their [None] is Python's [None].  The
    [_var] fields are the Tk variables, holding the text shown in the
    widget. *)
Record Module : Type := mkModule {
  name : string;
  display_name : string;
  faction : option string;
  ship_type : option string;
  is_capital_ship : option bool;
  owned_status : option pyval;
  blueprint_owned : option pyval;
  ownership_var : option string;
  invented_var : option bool;
  me_var : option string;
  te_var : option string
}.

Definition set_owned_status (v : pyval) (m : Module) : Module :=
  mkModule (name m) (display_name m) (faction m) (ship_type m)
    (is_capital_ship m) (Some v) (blueprint_owned m) (ownership_var m)
    (invented_var m) (me_var m) (te_var m).

Definition set_blueprint_owned (v : pyval) (m : Module) : Module :=
  mkModule (name m) (display_name m) (faction m) (ship_type m)
    (is_capital_ship m) (owned_status m) (Some v) (ownership_var m)
    (invented_var m) (me_var m) (te_var m).

Definition set_ownership_var (s : string) (m : Module) : Module :=
  mkModule (name m) (display_name m) (faction m) (ship_type m)
    (is_capital_ship m) (owned_status m) (blueprint_owned m) (Some s)
    (invented_var m) (me_var m) (te_var m).

Definition set_me_var (s : string) (m : Module) : Module :=
  mkModule (name m) (display_name m) (faction m) (ship_type m)
    (is_capital_ship m) (owned_status m) (blueprint_owned m) (ownership_var m)
    (invented_var m) (Some s) (te_var m).

Definition set_te_var (s : string) (m : Module) : Module :=
  mkModule (name m) (display_name m) (faction m) (ship_type m)
    (is_capital_ship m) (owned_status m) (blueprint_owned m) (ownership_var m)
    (invented_var m) (me_var m) (Some s).

(** ** The object store *)

Definition loc := nat.
Definition heap := loc -> Module.

Definition upd (h : heap) (l : loc) (m : Module) : heap :=
  fun l' => if Nat.eqb l' l then m else h l'.

(** ** Insertion-ordered dictionaries *)

Definition odict (V : Type) := list (string * V).

Fixpoint od_get {V} (d : odict V) (k : string) : option V :=
  match d with
  | [] => None
  | (k', v) :: d' => if String.eqb k' k then Some v else od_get d' k
  end.

(** [d[k] = v]: an existing key keeps its position, a new key goes last. *)
Fixpoint od_set {V} (d : odict V) (k : string) (v : V) : odict V :=
  match d with
  | [] => [(k, v)]
  | (k', v') :: d' =>
      if String.eqb k' k then (k, v) :: d' else (k', v') :: od_set d' k v
  end.

Definition od_values {V} (d : odict V) : list V := map snd d.

(** ** Category keys *)

(** The category chosen at the head of [update_ship_ownership]:
    [hasattr(module, 'is_capital_ship') and module.is_capital_ship]. *)
Definition ship_category (m : Module) : string :=
  match is_capital_ship m with
  | Some true => "capital_ship_blueprints"
  | _ => "ship_blueprints"
  end.

(** ** The ownership overlay *)

Record Blueprint : Type := mkBlueprint {
  owned : bool;
  invented : bool;
  me : Z;
  te : Z
}.

Definition set_owned (b : bool) (r : Blueprint) : Blueprint :=
  mkBlueprint b (invented r) (me r) (te r).
Definition set_me (v : Z) (r : Blueprint) : Blueprint :=
  mkBlueprint (owned r) (invented r) v (te r).
Definition set_te (v : Z) (r : Blueprint) : Blueprint :=
  mkBlueprint (owned r) (invented r) (me r) v.
Definition set_invented (b : bool) (r : Blueprint) : Blueprint :=
  mkBlueprint (owned r) b (me r) (te r).

(** [blueprint_config]: category key -> entity name -> record. *)
Definition cfg_get (c : gmap string (gmap string Blueprint))
    (category nm : string) : option Blueprint :=
  match c !! category with
  | Some recs => recs !! nm
  | None => None
  end.

(** [c[category][nm] = r], creating [c[category]] when it is missing. *)
Definition cfg_put (c : gmap string (gmap string Blueprint))
    (category nm : string) (r : Blueprint) : gmap string (gmap string Blueprint) :=
  <[category := <[nm := r]> (default ∅ (c !! category))]> c.

(** The write path of [core/config/blueprint_config.py], which is not among
    the sources.  Section 4.2 of the specification describes it: a record
    missing for (category, name) is created with the edited field set and
    all other fields at their defaults ([owned=false, invented=false, me=0,
    te=0]); otherwise only the edited field is updated in place. *)
Definition default_blueprint : Blueprint := mkBlueprint false false 0 0.

(** Modelled from the spec: [update_blueprint_me] of the missing
    [blueprint_config] module, the ME mutator of section 4.2. *)
Definition update_blueprint_me (c : gmap string (gmap string Blueprint))
    (category nm : string) (v : Z) : gmap string (gmap string Blueprint) :=
  cfg_put c category nm (set_me v (default default_blueprint (cfg_get c category nm))).

(** Modelled from the spec: [update_blueprint_te] of the missing
    [blueprint_config] module, the TE mutator of section 4.2. *)
Definition update_blueprint_te (c : gmap string (gmap string Blueprint))
    (category nm : string) (v : Z) : gmap string (gmap string Blueprint) :=
  cfg_put c category nm (set_te v (default default_blueprint (cfg_get c category nm))).

(** Modelled from the spec: [update_blueprint_ownership] of the missing
    [blueprint_config] module, the ownership mutator of section 4.2.  The
    GUI passes ["Owned"] or ["Unowned"]; the record holds a boolean. *)
Definition update_blueprint_ownership (c : gmap string (gmap string Blueprint))
    (category nm : string) (value : string) : gmap string (gmap string Blueprint) :=
  cfg_put c category nm
    (set_owned (String.eqb value "Owned")
       (default default_blueprint (cfg_get c category nm))).

(** ** What the code takes from outside

    [int(text)], [str.isdigit()] and [str.lower()] are Python builtins and
    [save_blueprint_ownership] writes the overlay to disk and reports
    success; the development is parametric in them.  [py_int s = None]
    stands for [ValueError].  The three laws are facts of Python: [int("0")]
    is [0], a text accepted by [isdigit] carries no sign, and on ASCII text
    [lower] changes the letters [A]..[Z] only. *)
Class Externals : Type := {
  py_int : string -> option Z;
  py_isdigit : string -> bool;
  str_lower : string -> string;
  save_blueprint_ownership : gmap string (gmap string Blueprint) -> bool;
  py_int_zero : py_int "0" = Some 0;
  py_isdigit_nonneg :
    forall s v, py_isdigit s = true -> py_int s = Some v -> 0 <= v;
  str_lower_ascii :
    forall s, is_ascii s = true -> str_lower s = py_lower s
}.

(** [BlueprintManager.get_category_from_module_type]:
    [category_mapping.get(module_type, module_type.lower())]. *)
Definition get_category_from_module_type `{Externals} (module_type : string)
    : string :=
  if String.eqb module_type "Ships" then "ship_blueprints"
  else if String.eqb module_type "Capital Ships" then "capital_ship_blueprints"
  else if String.eqb module_type "Components" then "components"
  else if String.eqb module_type "Capital Components" then "component_blueprints"
  else str_lower module_type.

(** [str(n)] for an integer. *)
Definition py_str (n : Z) : string := NilZero.string_of_int (Z.to_int n).

(** ** ModuleRegistry *)

Record ModuleRegistry : Type := mkRegistry {
  ships : odict loc;
  capital_ships : odict loc;
  components : odict loc;
  capital_components : odict loc;
  factions : gset string;
  ship_types : gset string
}.

(** [ModuleRegistry.__init__] *)
Definition new_registry : ModuleRegistry :=
  mkRegistry [] [] [] [] {["All"]} {["All"]}.

(** [if x and x not in s: s.add(x)] *)
Definition add_label (o : option string) (s : gset string) : gset string :=
  match o with
  | Some x => if str_truthy (Some x) then s ∪ {[x]} else s
  | None => s
  end.

Definition register_ship (h : heap) (ship : loc) (r : ModuleRegistry) : ModuleRegistry :=
  mkRegistry (od_set (ships r) (name (h ship)) ship) (capital_ships r)
    (components r) (capital_components r)
    (add_label (faction (h ship)) (factions r))
    (add_label (ship_type (h ship)) (ship_types r)).

Definition register_capital_ship (h : heap) (ship : loc) (r : ModuleRegistry) : ModuleRegistry :=
  mkRegistry (ships r) (od_set (capital_ships r) (name (h ship)) ship)
    (components r) (capital_components r)
    (add_label (faction (h ship)) (factions r))
    (add_label (ship_type (h ship)) (ship_types r)).

Definition register_component (h : heap) (c : loc) (r : ModuleRegistry) : ModuleRegistry :=
  mkRegistry (ships r) (capital_ships r) (od_set (components r) (name (h c)) c)
    (capital_components r) (factions r) (ship_types r).

Definition register_capital_component (h : heap) (c : loc) (r : ModuleRegistry) : ModuleRegistry :=
  mkRegistry (ships r) (capital_ships r) (components r)
    (od_set (capital_components r) (name (h c)) c) (factions r) (ship_types r).

Definition get_ship (r : ModuleRegistry) (nm : string) : option loc :=
  od_get (ships r) nm.

(** One filter argument: [not f or f == "All" or attr == f]. *)
Definition label_passes (f : option string) (attr : option string) : bool :=
  negb (str_truthy f)
  || match f with
     | Some s => String.eqb s "All"
                 || match attr with Some a => String.eqb a s | None => false end
     | None => false
     end.

(** [(isinstance(x, bool) and x) or (isinstance(x, str) and x.lower() == "owned")] *)
Definition is_owned_value (v : pyval) : bool :=
  match v with
  | PyBool b => b
  | PyStr s => String.eqb (py_lower s) "owned"
  | PyOther => false
  end.

(** The condition of the comprehension in [get_ships_by_filter].  [and] and
    [or] short-circuit: [ship.owned_status] is read only when the two label
    tests pass and [owned_only] is set; [None] is the [AttributeError] of an
    object without that attribute. *)
Definition ship_selected (f t : option string) (owned_only : bool) (m : Module)
    : option bool :=
  if label_passes f (faction m) && label_passes t (ship_type m) then
    if negb owned_only then Some true
    else match owned_status m with
         | Some v => Some (is_owned_value v)
         | None => None
         end
  else Some false.

(** A list comprehension whose condition may raise. *)
Fixpoint comprehension (h : heap) (cond : Module -> option bool) (ls : list loc)
    : option (list loc) :=
  match ls with
  | [] => Some []
  | l :: ls' =>
      match cond (h l) with
      | None => None
      | Some b =>
          match comprehension h cond ls' with
          | None => None
          | Some out => Some (if b then l :: out else out)
          end
      end
  end.

Definition get_ships_by_filter (h : heap) (r : ModuleRegistry)
    (f t : option string) (owned_only : bool) : option (list loc) :=
  comprehension h (ship_selected f t owned_only) (od_values (ships r)).

Definition get_capital_ships_by_filter (h : heap) (r : ModuleRegistry)
    (f t : option string) (owned_only : bool) : option (list loc) :=
  comprehension h (ship_selected f t owned_only) (od_values (capital_ships r)).

(** [next((s for s in d.values() if s.display_name == display_name), None)] *)
Fixpoint first_by_display_name (h : heap) (ls : list loc) (dn : string) : option loc :=
  match ls with
  | [] => None
  | l :: ls' =>
      if String.eqb (display_name (h l)) dn then Some l
      else first_by_display_name h ls' dn
  end.

Definition get_ship_by_display_name (h : heap) (r : ModuleRegistry) (dn : string) :=
  first_by_display_name h (od_values (ships r)) dn.

Definition get_capital_ship_by_display_name (h : heap) (r : ModuleRegistry) (dn : string) :=
  first_by_display_name h (od_values (capital_ships r)) dn.

(** [if ship: return ship]: an entity object is always truthy, so the test
    is the test for [None]. *)
Definition get_ship_by_display_name_combined (h : heap) (r : ModuleRegistry)
    (dn : string) : option loc :=
  match get_ship_by_display_name h r dn with
  | Some ship => Some ship
  | None => get_capital_ship_by_display_name h r dn
  end.

(** ** BlueprintManager *)

Record BlueprintManager : Type := mkManager {
  objs : heap;
  module_registry : ModuleRegistry;
  discovered_modules : odict (odict loc);
  blueprint_config : gmap string (gmap string Blueprint);
  status_var : string
}.

(** The entities visited by
    [for category_name, modules in self.discovered_modules.items():
       for module_name, module in modules.items(): ...],
    in visiting order. *)
Definition entities (dm : odict (odict loc)) : list (string * string * loc) :=
  flat_map (fun '(category_name, modules) =>
              map (fun '(module_name, module) => (category_name, module_name, module))
                  modules) dm.

(** *** The read path: [refresh_registry_if_needed] *)

(** Lines 1260-1262 and 1266-1268: one registry mapping against one
    overlay category. *)
Definition refresh_ships (c : gmap string (gmap string Blueprint))
    (category : string) (d : odict loc) (h : heap) : heap :=
  foldl (fun h '(ship_name, ship) =>
           match cfg_get c category ship_name with
           | Some r => upd h ship (set_owned_status (PyBool (owned r)) (h ship))
           | None => h
           end) h d.

(** Lines 1280-1291, for one module whose record holds [is_owned]. *)
Definition refresh_module (initial_load : bool) (is_owned : bool) (m : Module) : Module :=
  let m1 :=
    match owned_status m with
    | Some _ => set_owned_status (PyBool is_owned) m
    | None =>
        match blueprint_owned m with
        | Some _ => set_blueprint_owned (PyBool is_owned) m
        | None => m
        end
    end in
  if initial_load then
    match ownership_var m1 with
    | Some v =>
        let ownership_value := if is_owned then "owned" else "unowned" in
        if negb (String.eqb v ownership_value)
        then set_ownership_var ownership_value m1 else m1
    | None => m1
    end
  else m1.

(** Lines 1273-1291. *)
Definition refresh_discovered `{Externals} (initial_load : bool)
    (c : gmap string (gmap string Blueprint))
    (es : list (string * string * loc)) (h : heap) : heap :=
  foldl (fun h '(category_name, module_name, module) =>
           match cfg_get c (get_category_from_module_type category_name) module_name with
           | Some r => upd h module (refresh_module initial_load (owned r) (h module))
           | None => h
           end) h es.

(** The manager is built with a registry, so the guard of line 1254 holds. *)
Definition refresh_registry_if_needed `{Externals} (initial_load : bool)
    (st : BlueprintManager)
    : BlueprintManager :=
  let c := blueprint_config st in
  let h1 :=
    if initial_load then
      refresh_ships c "capital_ship_blueprints" (capital_ships (module_registry st))
        (refresh_ships c "ship_blueprints" (ships (module_registry st)) (objs st))
    else objs st in
  mkManager (refresh_discovered initial_load c (entities (discovered_modules st)) h1)
    (module_registry st) (discovered_modules st) c (status_var st).

(** *** The write path *)

Definition clamp (lo hi v : Z) : Z :=
  if (v <? lo)%Z then lo else if (hi <? v)%Z then hi else v.

Definition with_config (st : BlueprintManager)
    (c : gmap string (gmap string Blueprint)) : BlueprintManager :=
  mkManager (objs st) (module_registry st) (discovered_modules st) c (status_var st).

(** [validate_me(event, category, module_name)]; [value] is the text of the
    entry widget, and the first component of the result its text afterwards. *)
Definition validate_me `{Externals} (value category module_name : string)
    (st : BlueprintManager) : string * BlueprintManager :=
  match py_int value with
  | Some v =>
      let me_value := clamp 0 10 v in
      (py_str me_value,
       refresh_registry_if_needed false
         (with_config st
            (update_blueprint_me (blueprint_config st) category module_name me_value)))
  | None =>
      ("0",
       refresh_registry_if_needed false
         (with_config st
            (update_blueprint_me (blueprint_config st) category module_name 0)))
  end.

(** [validate_te(event, category, module_name)] *)
Definition validate_te `{Externals} (value category module_name : string)
    (st : BlueprintManager) : string * BlueprintManager :=
  match py_int value with
  | Some v =>
      let te_value := clamp 0 20 v in
      (py_str te_value,
       refresh_registry_if_needed false
         (with_config st
            (update_blueprint_te (blueprint_config st) category module_name te_value)))
  | None =>
      ("0",
       refresh_registry_if_needed false
         (with_config st
            (update_blueprint_te (blueprint_config st) category module_name 0)))
  end.

(** [update_ship_ownership(module_name, module, value)] *)
Definition update_ship_ownership (module_name : string) (module : loc)
    (value : string) (st : BlueprintManager) : BlueprintManager :=
  let m := objs st module in
  let category := ship_category m in
  let config_value := if String.eqb value "owned" then "Owned" else "Unowned" in
  mkManager
    (upd (objs st) module
       (set_owned_status (PyBool (String.eqb config_value "Owned")) m))
    (module_registry st) (discovered_modules st)
    (update_blueprint_ownership (blueprint_config st) category module_name config_value)
    ("Updated " ++ display_name m ++ " ownership to " ++ config_value).

(** *** Reset: [reset_all_ship_ownership] *)

(** Lines 1081-1086 and 1091-1096: the loop body for one ship. *)
Definition reset_step (category : string)
    (s : heap * gmap string (gmap string Blueprint)) (e : string * loc)
    : heap * gmap string (gmap string Blueprint) :=
  let '(h, c) := s in
  let '(ship_name, ship) := e in
  (match owned_status (h ship) with
   | Some _ => upd h ship (set_owned_status (PyBool false) (h ship))
   | None => h
   end,
   match cfg_get c category ship_name with
   | Some r => cfg_put c category ship_name (set_owned false r)
   | None => c
   end).

(** Lines 1080-1086 and 1090-1096: one registry mapping, one category. *)
Definition reset_ships (category : string) (d : odict loc)
    (s : heap * gmap string (gmap string Blueprint))
    : heap * gmap string (gmap string Blueprint) :=
  foldl (reset_step category) s d.

Definition reset_all_ship_ownership `{Externals} (st : BlueprintManager)
    : bool * BlueprintManager :=
  let '(h, c) :=
    reset_ships "capital_ship_blueprints" (capital_ships (module_registry st))
      (reset_ships "ship_blueprints" (ships (module_registry st))
         (objs st, blueprint_config st)) in
  let success := save_blueprint_ownership c in
  (success,
   mkManager h (module_registry st) (discovered_modules st) c
     (if success then "All ship ownership has been reset"
      else "Error: Failed to save reset changes")).

(** *** Bulk save: [update_all_ownership_values] *)

(** [int(var.get()) if var and var.get().isdigit() else 0]; [None] is the
    [ValueError] of [int] on a text that [isdigit] accepted. *)
Definition read_digits `{Externals} (var : option string) : option Z :=
  match var with
  | Some s => if py_isdigit s then py_int s else Some 0
  | None => Some 0
  end.

(** The body of the first loop (lines 918-989) for one entity.  The
    [try]/[except Exception: pass] around the second branch leaves the
    overlay as it was when reading ME or TE raises: both are read before the
    overlay is touched. *)
Definition ownership_step `{Externals} (h : heap)
    (c : gmap string (gmap string Blueprint)) (e : string * string * loc)
    : gmap string (gmap string Blueprint) :=
  let '(category_name, module_name, module) := e in
  let category := get_category_from_module_type category_name in
  if String.eqb category "" then c
  else
    let m := h module in
    if String.eqb category_name "capital_components" then
      match ownership_var m with
      | Some ownership_status =>
          let is_owned := String.eqb ownership_status "owned" in
          match cfg_get c "component_blueprints" module_name with
          | None =>
              cfg_put c "component_blueprints" module_name
                (mkBlueprint is_owned false 0 0)
          | Some r =>
              cfg_put c "component_blueprints" module_name (set_owned is_owned r)
          end
      | None => c
      end
    else
      match ownership_var m with
      | Some var_value =>
          let is_owned := String.eqb var_value "owned" in
          let is_invented := default false (invented_var m) in
          match read_digits (me_var m) with
          | None => c
          | Some me_value =>
              match read_digits (te_var m) with
              | None => c
              | Some te_value =>
                  match cfg_get c category module_name with
                  | None =>
                      cfg_put c category module_name
                        (mkBlueprint is_owned is_invented me_value te_value)
                  | Some r =>
                      cfg_put c category module_name
                        (set_te te_value
                           (set_me me_value
                              (set_invented is_invented (set_owned is_owned r))))
                  end
              end
          end
      | None => c
      end.

(** The body of the second loop (lines 992-1026) for one entity. *)
Definition me_step `{Externals}
    (s : heap * gmap string (gmap string Blueprint)) (e : string * string * loc)
    : heap * gmap string (gmap string Blueprint) :=
  let '(h, c) := s in
  let '(category_name, module_name, module) := e in
  let category := get_category_from_module_type category_name in
  let m := h module in
  match me_var m with
  | None => (h, c)
  | Some text =>
      match py_int text with
      | Some v =>
          let '(me_value, h1) :=
            if (v <? 0)%Z then (0, upd h module (set_me_var "0" m)) else (v, h) in
          if String.eqb category_name "capital_components" then
            (h1,
             match cfg_get c "component_blueprints" module_name with
             | None =>
                 cfg_put c "component_blueprints" module_name
                   (mkBlueprint false false me_value 0)
             | Some r =>
                 cfg_put c "component_blueprints" module_name (set_me me_value r)
             end)
          else (h1, update_blueprint_me c category module_name me_value)
      | None =>
          let h1 := upd h module (set_me_var "0" m) in
          if String.eqb category_name "capital_components" then
            (h1,
             match cfg_get c "component_blueprints" module_name with
             | Some r => cfg_put c "component_blueprints" module_name (set_me 0 r)
             | None => c
             end)
          else (h1, update_blueprint_me c category module_name 0)
      end
  end.

(** The body of the third loop (lines 1029-1063) for one entity. *)
Definition te_step `{Externals}
    (s : heap * gmap string (gmap string Blueprint)) (e : string * string * loc)
    : heap * gmap string (gmap string Blueprint) :=
  let '(h, c) := s in
  let '(category_name, module_name, module) := e in
  let category := get_category_from_module_type category_name in
  let m := h module in
  match te_var m with
  | None => (h, c)
  | Some text =>
      match py_int text with
      | Some v =>
          let '(te_value, h1) :=
            if (v <? 0)%Z then (0, upd h module (set_te_var "0" m)) else (v, h) in
          if String.eqb category_name "capital_components" then
            (h1,
             match cfg_get c "component_blueprints" module_name with
             | None =>
                 cfg_put c "component_blueprints" module_name
                   (mkBlueprint false false 0 te_value)
             | Some r =>
                 cfg_put c "component_blueprints" module_name (set_te te_value r)
             end)
          else (h1, update_blueprint_te c category module_name te_value)
      | None =>
          let h1 := upd h module (set_te_var "0" m) in
          if String.eqb category_name "capital_components" then
            (h1,
             match cfg_get c "component_blueprints" module_name with
             | Some r => cfg_put c "component_blueprints" module_name (set_te 0 r)
             | None => c
             end)
          else (h1, update_blueprint_te c category module_name 0)
      end
  end.

Definition ownership_pass `{Externals} (h : heap)
    (es : list (string * string * loc))
    (c : gmap string (gmap string Blueprint)) : gmap string (gmap string Blueprint) :=
  foldl (ownership_step h) c es.

Definition me_pass `{Externals} (es : list (string * string * loc))
    (s : heap * gmap string (gmap string Blueprint)) :=
  foldl me_step s es.

Definition te_pass `{Externals} (es : list (string * string * loc))
    (s : heap * gmap string (gmap string Blueprint)) :=
  foldl te_step s es.

Definition update_all_ownership_values `{Externals} (st : BlueprintManager)
    : bool * BlueprintManager :=
  let es := entities (discovered_modules st) in
  let c1 := ownership_pass (objs st) es (blueprint_config st) in
  let '(h3, c3) := te_pass es (me_pass es (objs st, c1)) in
  let success := save_blueprint_ownership c3 in
  (success,
   mkManager h3 (module_registry st) (discovered_modules st) c3
     (if success then "Blueprint configuration saved successfully"
      else "Error saving blueprint configuration")).

(** ** The filter as the specification words it

    "returns ships where faction matches (or filter is absent/All),
    ship_type matches (or absent/All), and, if owned_only, ownership is
    truthy under either boolean or case-insensitive string owned". *)
Definition spec_label_passes (f : option string) (attr : option string) : bool :=
  match f with
  | None => true
  | Some s => String.eqb s "All"
              || match attr with Some a => String.eqb a s | None => false end
  end.

Definition spec_ship_selected (f t : option string) (owned_only : bool)
    (m : Module) : bool :=
  spec_label_passes f (faction m) && spec_label_passes t (ship_type m)
  && (negb owned_only
      || match owned_status m with
         | Some v => is_owned_value v
         | None => false
         end).

(** ** A concrete reading of the builtins

    Enough of CPython's [int] and [str.isdigit] to run the code on examples:
    [int] reads an optional sign followed by ASCII digits; [isdigit] accepts
    non-empty runs of ASCII digits and the superscript two (U+00B2, bytes
    194 178), which [isdigit] accepts and [int] rejects. *)
Definition digit_val (c : ascii) : option Z :=
  let n := nat_of_ascii c in
  if ((48 <=? n)%nat && (n <=? 57)%nat)%bool then Some (Z.of_nat (n - 48)) else None.

Fixpoint digits_val (acc : Z) (s : string) : option Z :=
  match s with
  | EmptyString => Some acc
  | String c s' =>
      match digit_val c with
      | Some d => digits_val (10 * acc + d) s'
      | None => None
      end
  end.

Definition nat_literal (s : string) : option Z :=
  match s with
  | EmptyString => None
  | _ => digits_val 0 s
  end.

Definition int_of_text (s : string) : option Z :=
  match s with
  | String "-" s' => option_map Z.opp (nat_literal s')
  | String "+" s' => nat_literal s'
  | _ => nat_literal s
  end.

Definition superscript_two : string :=
  String (ascii_of_nat 194) (String (ascii_of_nat 178) EmptyString).

Definition isdigit_text (s : string) : bool :=
  String.eqb s superscript_two
  || match nat_literal s with Some _ => true | None => false end.

(** ** Bulk save as a sequence of writes

    For the analysis of the bulk save, every write it performs is read as a
    patch applied to the record of one (category, name) pair, the default
    record standing in for a missing one. *)
Record patch : Type := mkPatch {
  p_owned : option bool;
  p_invented : option bool;
  p_me : option Z;
  p_te : option Z
}.

Definition apply_patch (p : patch) (r : Blueprint) : Blueprint :=
  mkBlueprint (default (owned r) (p_owned p)) (default (invented r) (p_invented p))
    (default (me r) (p_me p)) (default (te r) (p_te p)).

(** [compose q p]: [p] first, then [q]. *)
Definition compose (q p : patch) : patch :=
  mkPatch (match p_owned q with Some b => Some b | None => p_owned p end)
          (match p_invented q with Some b => Some b | None => p_invented p end)
          (match p_me q with Some v => Some v | None => p_me p end)
          (match p_te q with Some v => Some v | None => p_te p end).

Definition apply_op (c : gmap string (gmap string Blueprint))
    (o : string * string * patch) : gmap string (gmap string Blueprint) :=
  let '(category, nm, p) := o in
  cfg_put c category nm
    (apply_patch p (default default_blueprint (cfg_get c category nm))).

Definition run_ops (ops : list (string * string * patch))
    (c : gmap string (gmap string Blueprint)) : gmap string (gmap string Blueprint) :=
  foldl apply_op c ops.

(** The patch that a list of writes amounts to on one pair, if any. *)
Fixpoint effect (ops : list (string * string * patch)) (category nm : string)
    : option patch :=
  match ops with
  | [] => None
  | (category', nm', p) :: ops' =>
      if decide ((category', nm') = (category, nm))
      then Some (match effect ops' category nm with
                 | Some q => compose q p
                 | None => p
                 end)
      else effect ops' category nm
  end.

(** What the bulk save reads from an entity. *)
Definition me_reading `{Externals} (m : Module) : option (option Z) :=
  option_map (fun s => option_map (Z.max 0) (py_int s)) (me_var m).

Definition te_reading `{Externals} (m : Module) : option (option Z) :=
  option_map (fun s => option_map (Z.max 0) (py_int s)) (te_var m).

Definition view `{Externals} (m : Module) :=
  (ownership_var m, invented_var m, read_digits (me_var m),
   read_digits (te_var m), me_reading m, te_reading m).

(** The category the ME and TE loops write under. *)
Definition efficiency_category `{Externals} (category_name : string) : string :=
  if String.eqb category_name "capital_components" then "component_blueprints"
  else get_category_from_module_type category_name.

Definition ownership_ops `{Externals} (h : heap) (e : string * string * loc)
    : list (string * string * patch) :=
  let '(category_name, module_name, module) := e in
  let '(ov, iv, rme, rte, _, _) := view (h module) in
  if String.eqb (get_category_from_module_type category_name) "" then []
  else if String.eqb category_name "capital_components" then
    match ov with
    | Some s =>
        [("component_blueprints", module_name,
          mkPatch (Some (String.eqb s "owned")) None None None)]
    | None => []
    end
  else
    match ov, rme, rte with
    | Some s, Some a, Some b =>
        [(get_category_from_module_type category_name, module_name,
          mkPatch (Some (String.eqb s "owned")) (Some (default false iv))
            (Some a) (Some b))]
    | _, _, _ => []
    end.

Definition me_ops `{Externals} (h : heap) (e : string * string * loc)
    : list (string * string * patch) :=
  let '(category_name, module_name, module) := e in
  let '(_, _, _, _, cme, _) := view (h module) in
  match cme with
  | Some (Some v) =>
      [(efficiency_category category_name, module_name,
        mkPatch None None (Some v) None)]
  | _ => []
  end.

Definition te_ops `{Externals} (h : heap) (e : string * string * loc)
    : list (string * string * patch) :=
  let '(category_name, module_name, module) := e in
  let '(_, _, _, _, _, cte) := view (h module) in
  match cte with
  | Some (Some v) =>
      [(efficiency_category category_name, module_name,
        mkPatch None None None (Some v))]
  | _ => []
  end.

Definition bulk_ops `{Externals} (h : heap) (es : list (string * string * loc))
    : list (string * string * patch) :=
  (flat_map (ownership_ops h) es ++ flat_map (me_ops h) es
   ++ flat_map (te_ops h) es)%list.

(** Every ME and TE text of the entity is one that [int] reads. *)
Definition numeric_texts `{Externals} (m : Module) : Prop :=
  me_reading m <> Some None /\ te_reading m <> Some None.

(** Processing the entity in the first loop raises: [isdigit] accepts its ME
    or TE text and [int] does not. *)
Definition ownership_step_raises `{Externals} (h : heap)
    (e : string * string * loc) : Prop :=
  let '(category_name, module_name, module) := e in
  get_category_from_module_type category_name <> ""
  /\ category_name <> "capital_components"
  /\ is_Some (ownership_var (h module))
  /\ (read_digits (me_var (h module)) = None
      \/ read_digits (te_var (h module)) = None).


(** The value that the second and third loops write for a text: [int] of
    it with a negative value raised to 0, and 0 for a text that [int]
    rejects. *)
Definition written_value `{Externals} (text : string) : Z :=
  match py_int text with
  | Some v => Z.max 0 v
  | None => 0
  end.


(** A text box during or after a bulk save, against its text [t0] before:
    it is as it was, or it was reset to "0" because [int] rejected the text
    or read a negative value. *)
Definition text_settled `{Externals} (t0 t : option string) : Prop :=
  t = t0
  \/ (t = Some "0"
      /\ exists s, t0 = Some s
                   /\ (py_int s = None \/ exists v, py_int s = Some v /\ v < 0)).

Definition settled `{Externals} (m0 m : Module) : Prop :=
  ownership_var m = ownership_var m0
  /\ invented_var m = invented_var m0
  /\ text_settled (me_var m0) (me_var m)
  /\ text_settled (te_var m0) (te_var m).

(** The writes of the second and third loops when none of them is skipped. *)
Definition me_write `{Externals} (h : heap) (e : string * string * loc)
    : list (string * string * patch) :=
  let '(category_name, module_name, module) := e in
  match me_var (h module) with
  | Some s =>
      [(efficiency_category category_name, module_name,
        mkPatch None None (Some (written_value s)) None)]
  | None => []
  end.

Definition te_write `{Externals} (h : heap) (e : string * string * loc)
    : list (string * string * patch) :=
  let '(category_name, module_name, module) := e in
  match te_var (h module) with
  | Some s =>
      [(efficiency_category category_name, module_name,
        mkPatch None None None (Some (written_value s)))]
  | None => []
  end.

Definition bulk_writes `{Externals} (h : heap) (es : list (string * string * loc))
    : list (string * string * patch) :=
  (flat_map (ownership_ops h) es ++ flat_map (me_write h) es
   ++ flat_map (te_write h) es)%list.


(** A capital component whose ME or TE text [int] rejects is written by the
    second and third loops only if its record exists: the first loop makes
    it when the entity has an ownership variable. *)
Definition record_ensured `{Externals} (h : heap)
    (c : gmap string (gmap string Blueprint)) (e : string * string * loc) : Prop :=
  let '(category_name, module_name, module) := e in
  category_name = "capital_components" ->
  me_reading (h module) = Some None \/ te_reading (h module) = Some None ->
  is_Some (ownership_var (h module))
  \/ is_Some (cfg_get c "component_blueprints" module_name).


(** ** Sample data *)

Definition rifter : Module :=
  mkModule "rifter" "Rifter" (Some "Minmatar") (Some "Frigate") (Some false)
    (Some (PyBool false)) None (Some "owned") None (Some "15") (Some "-3").

Definition naglfar : Module :=
  mkModule "naglfar" "Naglfar" (Some "Minmatar") (Some "Dreadnought") (Some true)
    (Some (PyBool false)) None (Some "unowned") None (Some "0") (Some "0").

Definition merlin : Module :=
  mkModule "merlin" "Merlin" (Some "Caldari") (Some "Frigate") (Some false)
    (Some (PyStr "Owned")) None (Some "owned") None (Some "4") (Some "8").

(** A capital component whose ME and TE boxes hold text that is not a
    number, and that has no ownership variable. *)
Definition armor_plates : Module :=
  mkModule "capital_armor_plates" "Capital Armor Plates" None None None
    (Some (PyBool false)) None None None (Some "abc") (Some "abc").

(** An entity of the older shape, with [blueprint_owned] only. *)
Definition legacy_part : Module :=
  mkModule "legacy_part" "Legacy Part" None None None
    None (Some (PyBool false)) None None None None.

(** A component whose ME box holds the superscript two. *)
Definition fusion_reactor : Module :=
  mkModule "fusion_reactor" "Fusion Reactor" None None None
    (Some (PyBool false)) None (Some "owned") None (Some superscript_two) (Some "2").

Definition sample_objs : heap :=
  fun l =>
    match l with
    | 0%nat => rifter
    | 1%nat => naglfar
    | 2%nat => merlin
    | 3%nat => armor_plates
    | 4%nat => legacy_part
    | _ => fusion_reactor
    end.

Definition sample_registry : ModuleRegistry :=
  register_capital_ship sample_objs 1%nat
    (register_ship sample_objs 2%nat (register_ship sample_objs 0%nat new_registry)).

Definition sample_config : gmap string (gmap string Blueprint) :=
  cfg_put
    (cfg_put
       (cfg_put ∅ "ship_blueprints" "rifter" (mkBlueprint true false 3 4))
       "ship_blueprints" "ghost" (mkBlueprint true false 1 2))
    "capital_ship_blueprints" "naglfar" (mkBlueprint true false 5 6).

Definition sample_manager : BlueprintManager :=
  mkManager sample_objs sample_registry
    [("ships", [("rifter", 0%nat); ("merlin", 2%nat)]);
     ("capital_ships", [("naglfar", 1%nat)])]
    sample_config "Ready".

Definition empty_manager : BlueprintManager :=
  mkManager sample_objs new_registry [] sample_config "Ready".

Definition reactor_manager : BlueprintManager :=
  mkManager sample_objs new_registry
    [("components", [("fusion_reactor", 5%nat)])]
    (cfg_put ∅ "components" "fusion_reactor" (mkBlueprint false false 1 1)) "Ready".

Definition plates_manager : BlueprintManager :=
  mkManager sample_objs new_registry
    [("capital_components", [("capital_armor_plates", 3%nat)])] ∅ "Ready".

Definition stale_manager : BlueprintManager :=
  mkManager sample_objs new_registry []
    (cfg_put ∅ "ship_blueprints" "naglfar" (mkBlueprint false false 0 0)) "Ready".


(** Texts that are not numbers: on an entity listed as a ship, and on the
    same object listed as a capital component that has its record. *)
Definition plated_manager : BlueprintManager :=
  mkManager sample_objs new_registry
    [("ships", [("rifter", 0%nat); ("plated", 3%nat)]);
     ("capital_components", [("capital_armor_plates", 3%nat)])]
    (cfg_put ∅ "component_blueprints" "capital_armor_plates"
       (mkBlueprint true false 7 9)) "Ready".


(** ** Further registry operations *)

Definition get_capital_ship (r : ModuleRegistry) (nm : string) : option loc :=
  od_get (capital_ships r) nm.

Definition get_component (r : ModuleRegistry) (nm : string) : option loc :=
  od_get (components r) nm.

Definition get_capital_component (r : ModuleRegistry) (nm : string) : option loc :=
  od_get (capital_components r) nm.

Definition get_all_ships (r : ModuleRegistry) : list loc := od_values (ships r).

Definition get_all_capital_ships (r : ModuleRegistry) : list loc :=
  od_values (capital_ships r).

Definition get_all_ships_combined (r : ModuleRegistry) : list loc :=
  (od_values (ships r) ++ od_values (capital_ships r))%list.

(** [get_ships_combined_by_filter]: the two filters, then [+]. *)
Definition get_ships_combined_by_filter (h : heap) (r : ModuleRegistry)
    (f t : option string) (owned_only : bool) : option (list loc) :=
  match get_ships_by_filter h r f t owned_only with
  | None => None
  | Some filtered_ships =>
      match get_capital_ships_by_filter h r f t owned_only with
      | None => None
      | Some filtered_capital_ships =>
          Some (filtered_ships ++ filtered_capital_ships)%list
      end
  end.

(** [attr != f] for an attribute that may hold [None]. *)
Definition attr_differs (attr : option string) (f : string) : bool :=
  match attr with
  | Some a => negb (String.eqb a f)
  | None => true
  end.

(** [get_filtered_ships(faction, ship_type)]: the dictionary built by the
    loop of lines 263-273. *)
Definition get_filtered_ships (h : heap) (r : ModuleRegistry)
    (f t : string) : odict loc :=
  foldl (fun filtered_ships '(nm, ship) =>
           if negb (String.eqb f "All") && attr_differs (faction (h ship)) f
           then filtered_ships
           else if negb (String.eqb t "All") && attr_differs (ship_type (h ship)) t
           then filtered_ships
           else od_set filtered_ships nm ship) [] (ships r).

(** The condition of the comprehension in [get_components_by_filter]. *)
Definition component_selected (owned_only : bool) (m : Module) : option bool :=
  if negb owned_only then Some true
  else match owned_status m with
       | Some v => Some (is_owned_value v)
       | None => None
       end.

Definition get_components_by_filter (h : heap) (r : ModuleRegistry)
    (owned_only : bool) : option (list loc) :=
  comprehension h (component_selected owned_only) (od_values (components r)).

(** [sorted(list(self.factions))]: Python orders [str] by code point, which
    on UTF-8 encoded text is the order of the bytes. *)
Definition get_factions (r : ModuleRegistry) : list string :=
  merge_sort String.le (elements (factions r)).

Definition get_ship_types (r : ModuleRegistry) : list string :=
  merge_sort String.le (elements (ship_types r)).

(** The registries that [__init__] and the [register_*] methods build over a
    store [h]. *)
Inductive built (h : heap) : ModuleRegistry -> Prop :=
  | built_new : built h new_registry
  | built_ship l r : built h r -> built h (register_ship h l r)
  | built_capital_ship l r : built h r -> built h (register_capital_ship h l r)
  | built_component l r : built h r -> built h (register_component h l r)
  | built_capital_component l r :
      built h r -> built h (register_capital_component h l r).

(** ** Further manager operations *)

(** [dict.update(other)] *)
Definition od_update {V} (d other : odict V) : odict V :=
  foldl (fun acc '(k, v) => od_set acc k v) d other.

(** [get_combined_ships_dict] *)
Definition get_combined_ships_dict (st : BlueprintManager) : odict loc :=
  let d1 :=
    match od_get (discovered_modules st) "ships" with
    | Some s => od_update [] s
    | None => []
    end in
  match od_get (discovered_modules st) "capital_ships" with
  | Some c => od_update d1 c
  | None => d1
  end.





(** [validate_capital_component_me(event, comp_name)]; [value] is the text
    of the entry widget, and the first component of the result its text
    afterwards. *)
Definition validate_capital_component_me `{Externals} (value comp_name : string)
    (st : BlueprintManager) : string * BlueprintManager :=
  match py_int value with
  | Some v =>
      let me_value := clamp 0 10 v in
      (py_str me_value,
       with_config st
         (update_blueprint_me (blueprint_config st) "component_blueprints"
            comp_name me_value))
  | None => ("0", st)
  end.

(** [validate_capital_component_te(event, comp_name)] *)
Definition validate_capital_component_te `{Externals} (value comp_name : string)
    (st : BlueprintManager) : string * BlueprintManager :=
  match py_int value with
  | Some v =>
      let te_value := clamp 0 20 v in
      (py_str te_value,
       with_config st
         (update_blueprint_te (blueprint_config st) "component_blueprints"
            comp_name te_value))
  | None => ("0", st)
  end.

(** [update_ownership(module_name, category, value)] *)
Definition update_ownership `{Externals} (module_name category value : string)
    (st : BlueprintManager) : BlueprintManager :=
  let ownership_value := if String.eqb value "owned" then "Owned" else "Unowned" in
  refresh_registry_if_needed false
    (with_config st
       (update_blueprint_ownership (blueprint_config st) category module_name
          ownership_value)).

(** [update_component_ownership(module_name, module, value)] *)
Definition update_component_ownership (module_name : string) (module : loc)
    (value : string) (st : BlueprintManager) : BlueprintManager :=
  let m := objs st module in
  let config_value := if String.eqb value "owned" then "Owned" else "Unowned" in
  mkManager
    (upd (objs st) module
       (set_owned_status (PyBool (String.eqb config_value "Owned")) m))
    (module_registry st) (discovered_modules st)
    (update_blueprint_ownership (blueprint_config st) "components" module_name
       config_value)
    ("Updated " ++ display_name m ++ " ownership to " ++ config_value).

(** [update_cap_component_ownership(module_name, module, value)] *)
Definition update_cap_component_ownership (module_name : string) (module : loc)
    (value : string) (st : BlueprintManager) : BlueprintManager :=
  let m := objs st module in
  let config_value := if String.eqb value "owned" then "Owned" else "Unowned" in
  mkManager
    (upd (objs st) module
       (set_owned_status (PyBool (String.eqb config_value "Owned")) m))
    (module_registry st) (discovered_modules st)
    (update_blueprint_ownership (blueprint_config st) "component_blueprints"
       module_name config_value)
    ("Updated " ++ display_name m ++ " ownership to " ++ config_value).

(** A mapping whose keys are distinct and are the names of the objects
    they map to. *)
Definition keyed_by_name (h : heap) (d : odict loc) : Prop :=
  NoDup d.*1 /\ forall n l, (n, l) ∈ d -> n = name (h l).

(** Whether the loop of [get_filtered_ships] keeps a ship. *)
Definition filtered_keeps (h : heap) (f t : string) (e : string * loc) : bool :=
  negb (negb (String.eqb f "All") && attr_differs (faction (h e.2)) f)
  && negb (negb (String.eqb t "All") && attr_differs (ship_type (h e.2)) t).

(** The overlay [c'] has every record of [c], and any further record of it is
    at the category and name under which [es] lists an entity. *)
Definition grows_within `{Externals} (es : list (string * string * loc))
    (c c' : gmap string (gmap string Blueprint)) : Prop :=
  forall category nm,
    (is_Some (cfg_get c category nm) -> is_Some (cfg_get c' category nm))
    /\ (is_Some (cfg_get c' category nm) ->
        is_Some (cfg_get c category nm)
        \/ exists cn l, (cn, nm, l) ∈ es /\ category = efficiency_category cn).

Definition parts_registry : ModuleRegistry :=
  register_component sample_objs 3%nat
    (register_component sample_objs 5%nat new_registry).

Definition registry_manager : BlueprintManager :=
  mkManager sample_objs sample_registry [] sample_config "Ready".

(** * Properties *)

(** ** The overlay as a two-level map *)

Lemma cfg_get_put_eq (c : gmap string (gmap string Blueprint)) category nm r :
  cfg_get (cfg_put c category nm r) category nm = Some r.
Proof.
  unfold cfg_get, cfg_put. rewrite lookup_insert_eq. apply lookup_insert_eq.
Qed.

Lemma cfg_get_put_ne (c : gmap string (gmap string Blueprint)) category nm r category' nm' :
  (category, nm) <> (category', nm') ->
  cfg_get (cfg_put c category nm r) category' nm' = cfg_get c category' nm'.
Proof.
  intros Hne. unfold cfg_get, cfg_put.
  destruct (decide (category = category')) as [->|Hc].
  - rewrite lookup_insert_eq.
    assert (nm <> nm') by congruence.
    rewrite lookup_insert_ne by done.
    destruct (c !! category'); simpl; [done | apply lookup_empty].
  - rewrite lookup_insert_ne by done. reflexivity.
Qed.

Lemma cfg_get_put (c : gmap string (gmap string Blueprint)) category nm r category' nm' :
  cfg_get (cfg_put c category nm r) category' nm'
  = if decide ((category, nm) = (category', nm')) then Some r
    else cfg_get c category' nm'.
Proof.
  case_decide as Hd.
  - inversion Hd; subst. apply cfg_get_put_eq.
  - apply cfg_get_put_ne, Hd.
Qed.

Lemma cfg_put_category (c : gmap string (gmap string Blueprint)) category nm r category' :
  is_Some (cfg_put c category nm r !! category')
  <-> category = category' \/ is_Some (c !! category').
Proof.
  unfold cfg_put. destruct (decide (category = category')) as [->|Hc].
  - rewrite lookup_insert_eq. split; eauto.
  - rewrite lookup_insert_ne by done. split; [eauto | intros [?|?]; done].
Qed.

(** Two overlays with the same categories and the same records are equal. *)
Lemma cfg_ext (c1 c2 : gmap string (gmap string Blueprint)) :
  (forall category, is_Some (c1 !! category) <-> is_Some (c2 !! category)) ->
  (forall category nm, cfg_get c1 category nm = cfg_get c2 category nm) ->
  c1 = c2.
Proof.
  intros Hcat Hget. apply map_eq. intros category.
  specialize (Hcat category). specialize (Hget category). unfold cfg_get in Hget.
  destruct (c1 !! category) as [m1|] eqn:E1, (c2 !! category) as [m2|] eqn:E2.
  - f_equal. apply map_eq, Hget.
  - destruct Hcat as [Hcat _]. destruct Hcat as [? ?]; [eauto | done].
  - destruct Hcat as [_ Hcat]. destruct Hcat as [? ?]; [eauto | done].
  - reflexivity.
Qed.

Lemma clamp_max_min lo hi v :
  lo <= hi -> clamp lo hi v = Z.max lo (Z.min hi v).
Proof.
  intros Hle. unfold clamp.
  destruct (Z.ltb_spec v lo); [lia|]. destruct (Z.ltb_spec hi v); lia.
Qed.

Lemma refresh_config `{Externals} initial_load st :
  blueprint_config (refresh_registry_if_needed initial_load st) = blueprint_config st.
Proof. reflexivity. Qed.

(** ** The concrete builtins satisfy the laws *)

Lemma digit_val_nonneg c d : digit_val c = Some d -> 0 <= d.
Proof.
  unfold digit_val. destruct (_ && _)%bool; [|discriminate].
  intros [= <-]. lia.
Qed.

Lemma digits_val_nonneg s : forall acc v,
  0 <= acc -> digits_val acc s = Some v -> 0 <= v.
Proof.
  induction s as [|c s IH]; simpl; intros acc v Hacc Hv.
  - injection Hv as <-. exact Hacc.
  - destruct (digit_val c) as [d|] eqn:Hd; [|discriminate].
    apply digit_val_nonneg in Hd. eapply IH; [|exact Hv]. lia.
Qed.

Lemma nat_literal_nonneg s v : nat_literal s = Some v -> 0 <= v.
Proof.
  destruct s; simpl; [discriminate|]. intros Hv.
  eapply (digits_val_nonneg (String a s) 0); [lia | exact Hv].
Qed.

Lemma isdigit_text_nonneg s v :
  isdigit_text s = true -> int_of_text s = Some v -> 0 <= v.
Proof.
  unfold isdigit_text. intros Hd Hi.
  apply orb_true_iff in Hd as [Hd|Hd].
  - apply String.eqb_eq in Hd. subst s. vm_compute in Hi. discriminate.
  - destruct (nat_literal s) as [w|] eqn:Hw; [|discriminate].
    destruct s as [|a s]; [discriminate|].
    destruct (Ascii.ascii_dec a "-") as [->|Hm]; [vm_compute in Hw; discriminate|].
    destruct (Ascii.ascii_dec a "+") as [->|Hp]; [vm_compute in Hw; discriminate|].
    assert (Hint : int_of_text (String a s) = nat_literal (String a s)).
    { unfold int_of_text.
      destruct a as [[] [] [] [] [] [] [] []]; try reflexivity; congruence. }
    rewrite Hint in Hi. eapply nat_literal_nonneg, Hi.
Qed.

(** The builtins as CPython has them on the texts of the sample data
    (ASCII labels, so that [str.lower()] is [py_lower]), with a store whose
    writes succeed or fail as [ok] says. *)
Definition cpython (ok : bool) : Externals :=
  Build_Externals int_of_text isdigit_text py_lower (fun _ => ok)
    eq_refl isdigit_text_nonneg (fun s _ => eq_refl).

(** ** Category-key resolution *)

Lemma update_ship_ownership_config module_name module value st :
  blueprint_config (update_ship_ownership module_name module value st)
  = update_blueprint_ownership (blueprint_config st)
      (ship_category (objs st module)) module_name
      (if String.eqb value "owned" then "Owned" else "Unowned").
Proof. reflexivity. Qed.

(** C4: the variant label resolves through the fixed table ("Ships",
    "Capital Ships", "Components", "Capital Components"), every other label
    resolves to its lower-cased text ([str.lower()] of the label, which on
    an ASCII label lowers the letters [A]..[Z] and keeps the rest), and the
    ownership edit of a ship writes under "capital_ship_blueprints" when the
    ship's [is_capital_ship] flag is true and under "ship_blueprints"
    otherwise, leaving the other ship category alone. *)
Theorem category_resolution `{Externals} :
  get_category_from_module_type "Ships" = "ship_blueprints"
  /\ get_category_from_module_type "Capital Ships" = "capital_ship_blueprints"
  /\ get_category_from_module_type "Components" = "components"
  /\ get_category_from_module_type "Capital Components" = "component_blueprints"
  /\ (forall label : string,
        label <> "Ships" -> label <> "Capital Ships" ->
        label <> "Components" -> label <> "Capital Components" ->
        get_category_from_module_type label = str_lower label
        /\ (is_ascii label = true ->
            get_category_from_module_type label = py_lower label))
  /\ (forall module_name module value st,
        let c' := blueprint_config (update_ship_ownership module_name module value st) in
        is_capital_ship (objs st module) = Some true ->
        is_Some (cfg_get c' "capital_ship_blueprints" module_name)
        /\ forall nm, cfg_get c' "ship_blueprints" nm
                      = cfg_get (blueprint_config st) "ship_blueprints" nm)
  /\ (forall module_name module value st,
        let c' := blueprint_config (update_ship_ownership module_name module value st) in
        is_capital_ship (objs st module) <> Some true ->
        is_Some (cfg_get c' "ship_blueprints" module_name)
        /\ forall nm, cfg_get c' "capital_ship_blueprints" nm
                      = cfg_get (blueprint_config st) "capital_ship_blueprints" nm).
Proof.
  assert (Hreg : forall m, is_capital_ship m <> Some true ->
                           ship_category m = "ship_blueprints").
  { intros m Hm. unfold ship_category.
    destruct (is_capital_ship m) as [[]|]; congruence. }
  do 4 (split; [reflexivity|]).
  split; [|split].
  - intros label H1 H2 H3 H4. unfold get_category_from_module_type.
    apply String.eqb_neq in H1, H2, H3, H4. rewrite H1, H2, H3, H4.
    split; [reflexivity|]. apply str_lower_ascii.
  - intros module_name module value st c' Hcap. subst c'.
    rewrite update_ship_ownership_config.
    unfold ship_category. rewrite Hcap. unfold update_blueprint_ownership.
    split; [rewrite cfg_get_put_eq; eauto|].
    intros nm. apply cfg_get_put_ne. congruence.
  - intros module_name module value st c' Hcap. subst c'.
    rewrite update_ship_ownership_config, (Hreg _ Hcap).
    unfold update_blueprint_ownership.
    split; [rewrite cfg_get_put_eq; eauto|].
    intros nm. apply cfg_get_put_ne. congruence.
Qed.

(** ** Single-field edits *)

(** C1: an ME edit committed through [validate_me] stores clamp(v, 0, 10), a
    TE edit committed through [validate_te] stores clamp(v, 0, 20), and a
    text that is not a number stores 0, for every category and entity
    name. *)
Theorem validated_edit_stored `{Externals} (value category module_name : string)
    (st : BlueprintManager) :
  (exists r,
      cfg_get (blueprint_config (snd (validate_me value category module_name st)))
        category module_name = Some r
      /\ me r = match py_int value with
                | Some v => Z.max 0 (Z.min 10 v)
                | None => 0
                end)
  /\ (exists r,
      cfg_get (blueprint_config (snd (validate_te value category module_name st)))
        category module_name = Some r
      /\ te r = match py_int value with
                | Some v => Z.max 0 (Z.min 20 v)
                | None => 0
                end).
Proof.
  unfold validate_me, validate_te.
  destruct (py_int value) as [v|]; simpl;
    unfold update_blueprint_me, update_blueprint_te;
    rewrite !cfg_get_put_eq; split; eexists; split; try reflexivity; simpl;
    try (apply clamp_max_min; lia); reflexivity.
Qed.

(** ** Registry queries *)

Lemma first_by_display_name_Some h ls dn l :
  first_by_display_name h ls dn = Some l ->
  l ∈ ls /\ display_name (h l) = dn.
Proof.
  induction ls as [|x ls IH]; simpl; [discriminate|].
  destruct (String.eqb (display_name (h x)) dn) eqn:E.
  - intros [= <-]. apply String.eqb_eq in E. split; [left | exact E].
  - intros Hl. destruct (IH Hl) as [Hin Hdn]. split; [right; exact Hin | exact Hdn].
Qed.

Lemma first_by_display_name_None h ls dn :
  first_by_display_name h ls dn = None <->
  forall l, l ∈ ls -> display_name (h l) <> dn.
Proof.
  induction ls as [|x ls IH]; simpl.
  - split; [intros _ l Hl; inversion Hl | reflexivity].
  - destruct (String.eqb (display_name (h x)) dn) eqn:E.
    + apply String.eqb_eq in E. split; [discriminate|].
      intros Hall. exfalso. apply (Hall x); [left | exact E].
    + apply String.eqb_neq in E. rewrite IH. split.
      * intros Hall l Hl. apply elem_of_cons in Hl as [->|Hl]; auto.
      * intros Hall l Hl. apply Hall. right. exact Hl.
Qed.

(** C10: the combined display-name lookup returns a regular ship with that
    display name whenever one is registered (the first one in iteration
    order), and answers from the capital ships only when no regular ship has
    that display name; a name shared by a regular and a capital ship gives
    the regular ship. *)
Theorem combined_lookup_prefers_regular (h : heap) (r : ModuleRegistry) (dn : string) :
  (forall l, l ∈ od_values (ships r) -> display_name (h l) = dn ->
     exists l', get_ship_by_display_name_combined h r dn = Some l'
                /\ get_ship_by_display_name h r dn = Some l'
                /\ l' ∈ od_values (ships r) /\ display_name (h l') = dn)
  /\ ((forall l, l ∈ od_values (ships r) -> display_name (h l) <> dn) ->
      get_ship_by_display_name_combined h r dn
      = get_capital_ship_by_display_name h r dn)
  /\ (forall c, get_ship_by_display_name_combined h r dn = Some c ->
      get_ship_by_display_name h r dn = None ->
      c ∈ od_values (capital_ships r) /\ display_name (h c) = dn
      /\ forall l, l ∈ od_values (ships r) -> display_name (h l) <> dn).
Proof.
  unfold get_ship_by_display_name_combined, get_ship_by_display_name,
    get_capital_ship_by_display_name.
  split; [|split].
  - intros l Hin Hdn.
    destruct (first_by_display_name h (od_values (ships r)) dn) as [l'|] eqn:E.
    + exists l'. destruct (first_by_display_name_Some _ _ _ _ E). auto.
    + exfalso. eapply first_by_display_name_None; eauto.
  - intros Hnone. apply first_by_display_name_None in Hnone.
    rewrite Hnone. reflexivity.
  - intros c Hc Hnone. rewrite Hnone in Hc.
    destruct (first_by_display_name_Some _ _ _ _ Hc) as [Hin Hdn].
    repeat split; auto. apply first_by_display_name_None, Hnone.
Qed.

Lemma label_passes_spec f attr :
  label_passes f attr = true <->
  f = None \/ f = Some "" \/ f = Some "All" \/ (f <> None /\ attr = f).
Proof.
  unfold label_passes, str_truthy. destruct f as [s|]; simpl.
  - destruct (String.eqb s "") eqn:E0; simpl.
    + apply String.eqb_eq in E0. subst. split; auto.
    + apply String.eqb_neq in E0.
      destruct (String.eqb s "All") eqn:EA; simpl.
      * apply String.eqb_eq in EA. subst. split; auto.
      * apply String.eqb_neq in EA. destruct attr as [a|].
        -- destruct (String.eqb a s) eqn:Ea.
           ++ apply String.eqb_eq in Ea. subst. split; auto 6.
           ++ apply String.eqb_neq in Ea. split; [discriminate|].
              intros [?|[?|[?|[_ ?]]]]; congruence.
        -- split; [discriminate|]. intros [?|[?|[?|[_ ?]]]]; congruence.
  - split; auto.
Qed.

Lemma is_owned_value_spec v :
  is_owned_value v = true <->
  v = PyBool true \/ exists s, v = PyStr s /\ py_lower s = "owned".
Proof.
  destruct v as [b|s|]; simpl.
  - split; [intros ->; auto | intros [[= ->]|(s & [=] & _)]; reflexivity].
  - rewrite String.eqb_eq. split; [eauto|].
    intros [[=]|(s' & [= <-] & Hs)]. exact Hs.
  - split; [discriminate | intros [[=]|(s & [=] & _)]].
Qed.

Lemma comprehension_total h cond ls :
  (forall l, l ∈ ls -> is_Some (cond (h l))) ->
  exists out, comprehension h cond ls = Some out
    /\ sublist out ls
    /\ forall l, l ∈ out <-> l ∈ ls /\ cond (h l) = Some true.
Proof.
  induction ls as [|x ls IH]; intros Hall; simpl.
  - exists []. split; [reflexivity|]. split; [constructor|].
    intros l. split; [intros Hl; inversion Hl | intros [Hl _]; inversion Hl].
  - destruct (Hall x) as [b Hb]; [left|]. rewrite Hb.
    destruct IH as (out & -> & Hsub & Hmem); [intros l Hl; apply Hall; right; exact Hl|].
    destruct b.
    + exists (x :: out). split; [reflexivity|]. split; [constructor; exact Hsub|].
      intros l. rewrite !elem_of_cons, Hmem. split.
      * intros [->|[? ?]]; auto.
      * intros [[->|?] ?]; auto.
    + exists out. split; [reflexivity|]. split; [constructor; exact Hsub|].
      intros l. rewrite elem_of_cons, Hmem. split.
      * intros [? ?]; auto.
      * intros [[->|?] ?]; [congruence | auto].
Qed.

(** C5, amended: when the registered ships expose [owned_status],
    [get_ships_by_filter] raises nothing and returns, in registry order,
    exactly the registered ships whose faction matches or whose faction
    filter is absent, empty or "All", whose ship type matches or whose
    ship-type filter is absent, empty or "All", and, when [owned_only] is
    set, whose cached ownership is the boolean true or a string equal to
    "owned" case-insensitively. *)
Theorem get_ships_by_filter_exact (h : heap) (r : ModuleRegistry)
    (f t : option string) (owned_only : bool) :
  (forall l, l ∈ od_values (ships r) -> is_Some (owned_status (h l))) ->
  exists out,
    get_ships_by_filter h r f t owned_only = Some out
    /\ sublist out (od_values (ships r))
    /\ forall l, l ∈ out <->
         l ∈ od_values (ships r)
         /\ (f = None \/ f = Some "" \/ f = Some "All"
             \/ (f <> None /\ faction (h l) = f))
         /\ (t = None \/ t = Some "" \/ t = Some "All"
             \/ (t <> None /\ ship_type (h l) = t))
         /\ (owned_only = true ->
             owned_status (h l) = Some (PyBool true)
             \/ exists s, owned_status (h l) = Some (PyStr s)
                          /\ py_lower s = "owned").
Proof.
  intros Hexp. unfold get_ships_by_filter.
  destruct (comprehension_total h (ship_selected f t owned_only)
              (od_values (ships r))) as (out & Hout & Hsub & Hmem).
  { intros l Hl. destruct (Hexp l Hl) as [v Hv]. unfold ship_selected.
    rewrite Hv. destruct (_ && _)%bool; [destruct (negb owned_only)|]; eauto. }
  exists out. split; [exact Hout|]. split; [exact Hsub|].
  intros l. rewrite Hmem. rewrite <- !label_passes_spec.
  assert (Hsel : l ∈ od_values (ships r) ->
            (ship_selected f t owned_only (h l) = Some true <->
             label_passes f (faction (h l)) = true
             /\ label_passes t (ship_type (h l)) = true
             /\ (owned_only = true ->
                 owned_status (h l) = Some (PyBool true)
                 \/ exists s, owned_status (h l) = Some (PyStr s)
                              /\ py_lower s = "owned"))).
  { intros Hl. destruct (Hexp l Hl) as [v Hv]. unfold ship_selected. rewrite Hv.
    destruct (label_passes f (faction (h l))); simpl;
      [|split; [discriminate | intros [? _]; discriminate]].
    destruct (label_passes t (ship_type (h l))); simpl;
      [|split; [discriminate | intros (_ & ? & _); discriminate]].
    destruct owned_only; simpl.
    - split.
      + intros [= Hown]. repeat split; intros _.
        apply is_owned_value_spec in Hown as [->|(s & -> & Hs)]; eauto.
      + intros (_ & _ & Hown). f_equal. apply is_owned_value_spec.
        destruct (Hown eq_refl) as [[= ->]|(s & [= ->] & Hs)]; eauto.
    - split; [intros _; repeat split; discriminate | reflexivity]. }
  split; intros [Hl Hrest]; (split; [exact Hl|]); apply (Hsel Hl); exact Hrest.
Qed.

(** ** Reset of ship ownership *)

Lemma upd_eq h l m : upd h l m l = m.
Proof. unfold upd. rewrite Nat.eqb_refl. reflexivity. Qed.

Lemma upd_ne h l m l' : l' <> l -> upd h l m l' = h l'.
Proof. unfold upd. intros Hne. apply Nat.eqb_neq in Hne. rewrite Hne. reflexivity. Qed.

(** What one reset loop does to the overlay: under its category, the records
    of the names it visits lose [owned]; nothing else changes. *)
Lemma reset_step_config category h c n0 l0 category' nm :
  cfg_get (snd (reset_step category (h, c) (n0, l0))) category' nm
  = if decide (category' = category /\ nm = n0)
    then set_owned false <$> cfg_get c category' nm
    else cfg_get c category' nm.
Proof.
  simpl. destruct (cfg_get c category n0) as [r0|] eqn:E0.
  - rewrite cfg_get_put. repeat case_decide; try reflexivity.
    + simplify_eq. rewrite E0. reflexivity.
    + simplify_eq. exfalso. auto.
    + exfalso. naive_solver.
  - case_decide as Hd; [|reflexivity]. destruct Hd as [-> ->].
    rewrite E0. reflexivity.
Qed.

Lemma reset_ships_config category d : forall h c category' nm,
  cfg_get (snd (reset_ships category d (h, c))) category' nm
  = if decide (category' = category /\ nm ∈ d.*1)
    then set_owned false <$> cfg_get c category' nm
    else cfg_get c category' nm.
Proof.
  unfold reset_ships.
  induction d as [|[n0 l0] d IH]; intros h c category' nm.
  - simpl. case_decide as Hd; [|reflexivity]. destruct Hd as [_ Hd]. inversion Hd.
  - cbn [foldl]. destruct (reset_step category (h, c) (n0, l0)) as [h1 c1] eqn:E1.
    rewrite IH. clear IH.
    pose proof (reset_step_config category h c n0 l0 category' nm) as Hs.
    rewrite E1 in Hs. simpl in Hs. rewrite Hs. clear Hs E1.
    rewrite fmap_cons. simpl.
    repeat case_decide; try reflexivity;
      try (destruct (cfg_get c category' nm) as [[]|]; reflexivity);
      exfalso; set_solver.
Qed.

Lemma reset_ships_category category d : forall h c category',
  is_Some (snd (reset_ships category d (h, c)) !! category')
  <-> is_Some (c !! category').
Proof.
  unfold reset_ships.
  induction d as [|[n0 l0] d IH]; intros h c category'; simpl; [reflexivity|].
  rewrite IH. destruct (cfg_get c category n0) as [r0|] eqn:E0; [|reflexivity].
  rewrite cfg_put_category. split; [|auto].
  intros [<-|?]; [|done]. unfold cfg_get in E0.
  destruct (c !! category); [eauto | discriminate].
Qed.

(** What one reset loop does to the objects. *)
Lemma reset_ships_objs category d : forall h c l,
  fst (reset_ships category d (h, c)) l
  = if decide (l ∈ d.*2 /\ is_Some (owned_status (h l)))
    then set_owned_status (PyBool false) (h l)
    else h l.
Proof.
  unfold reset_ships.
  induction d as [|[n0 l0] d IH]; intros h c l.
  - cbn [foldl fst]. case_decide as Hd; [|reflexivity].
    destruct Hd as [Hd _]. inversion Hd.
  - cbn [foldl]. destruct (reset_step category (h, c) (n0, l0)) as [h1 c1] eqn:E1.
    rewrite IH. clear IH. simpl in E1. injection E1 as <- _.
    rewrite fmap_cons. cbn [snd].
    destruct (owned_status (h l0)) as [v0|] eqn:E0.
    + destruct (decide (l = l0)) as [->|Hne].
      * rewrite upd_eq. simpl. rewrite E0.
        repeat case_decide; try reflexivity; exfalso.
        -- apply H0. split; [left | eauto].
        -- apply H0. split; [left | eauto].
      * rewrite upd_ne by done.
        repeat case_decide; try reflexivity; exfalso; set_solver.
    + repeat case_decide; try reflexivity; exfalso.
      * set_solver.
      * destruct H0 as [H0 Hs]. apply elem_of_cons in H0 as [->|H0].
        -- rewrite E0 in Hs. destruct Hs; discriminate.
        -- apply H. done.
Qed.

Lemma reset_all_ship_ownership_unfold `{Externals} st :
  let s1 := reset_ships "ship_blueprints" (ships (module_registry st))
              (objs st, blueprint_config st) in
  let s2 := reset_ships "capital_ship_blueprints"
              (capital_ships (module_registry st)) (fst s1, snd s1) in
  objs (snd (reset_all_ship_ownership st)) = fst s2
  /\ blueprint_config (snd (reset_all_ship_ownership st)) = snd s2
  /\ fst (reset_all_ship_ownership st) = save_blueprint_ownership (snd s2).
Proof.
  intros s1 s2. unfold reset_all_ship_ownership. fold s1.
  rewrite (surjective_pairing s1). fold s2.
  destruct s2 as [h2 c2]. auto.
Qed.

(** C6, amended: after [reset_all_ship_ownership] every registered ship and
    capital ship that exposes [owned_status] has it false, and every overlay
    record under "ship_blueprints" (resp. "capital_ship_blueprints") whose
    name is a registered ship (resp. capital ship) has [owned] false.  The
    [me], [te] and [invented] fields of every overlay record are unchanged,
    so are the records of every other category (components and capital
    components among them), the ship records of names that are not
    registered, and every object that is not a registered ship. *)
Theorem reset_all_ship_ownership_effect `{Externals} (st : BlueprintManager) :
  let reg := module_registry st in
  let st' := snd (reset_all_ship_ownership st) in
  (forall l, l ∈ (ships reg).*2 \/ l ∈ (capital_ships reg).*2 ->
     is_Some (owned_status (objs st l)) ->
     owned_status (objs st' l) = Some (PyBool false))
  /\ (forall nm r, nm ∈ (ships reg).*1 ->
        cfg_get (blueprint_config st') "ship_blueprints" nm = Some r ->
        owned r = false)
  /\ (forall nm r, nm ∈ (capital_ships reg).*1 ->
        cfg_get (blueprint_config st') "capital_ship_blueprints" nm = Some r ->
        owned r = false)
  /\ (forall category nm,
        me <$> cfg_get (blueprint_config st') category nm
        = me <$> cfg_get (blueprint_config st) category nm
        /\ te <$> cfg_get (blueprint_config st') category nm
           = te <$> cfg_get (blueprint_config st) category nm
        /\ invented <$> cfg_get (blueprint_config st') category nm
           = invented <$> cfg_get (blueprint_config st) category nm)
  /\ (forall category nm,
        category <> "ship_blueprints" -> category <> "capital_ship_blueprints" ->
        cfg_get (blueprint_config st') category nm
        = cfg_get (blueprint_config st) category nm)
  /\ (forall nm, nm ∉ (ships reg).*1 ->
        cfg_get (blueprint_config st') "ship_blueprints" nm
        = cfg_get (blueprint_config st) "ship_blueprints" nm)
  /\ (forall nm, nm ∉ (capital_ships reg).*1 ->
        cfg_get (blueprint_config st') "capital_ship_blueprints" nm
        = cfg_get (blueprint_config st) "capital_ship_blueprints" nm)
  /\ (forall l, l ∉ (ships reg).*2 -> l ∉ (capital_ships reg).*2 ->
        objs st' l = objs st l).
Proof.
  intros reg st'.
  destruct (reset_all_ship_ownership_unfold st) as (Hobjs & Hcfg & _).
  fold st' in Hobjs, Hcfg. fold reg in Hobjs, Hcfg.
  assert (Hget : forall category nm,
    cfg_get (blueprint_config st') category nm
    = if decide (category = "capital_ship_blueprints" /\ nm ∈ (capital_ships reg).*1)
      then set_owned false <$> cfg_get (blueprint_config st) category nm
      else if decide (category = "ship_blueprints" /\ nm ∈ (ships reg).*1)
      then set_owned false <$> cfg_get (blueprint_config st) category nm
      else cfg_get (blueprint_config st) category nm).
  { intros category nm. rewrite Hcfg, reset_ships_config, reset_ships_config.
    repeat case_decide; try reflexivity. exfalso. naive_solver. }
  assert (Hheap : forall l,
    objs st' l
    = if decide (l ∈ (capital_ships reg).*2
                 /\ is_Some (owned_status
                      (fst (reset_ships "ship_blueprints" (ships reg)
                              (objs st, blueprint_config st)) l)))
      then set_owned_status (PyBool false)
             (fst (reset_ships "ship_blueprints" (ships reg)
                     (objs st, blueprint_config st)) l)
      else fst (reset_ships "ship_blueprints" (ships reg)
                  (objs st, blueprint_config st)) l).
  { intros l. rewrite Hobjs. apply reset_ships_objs. }
  repeat split.
  - intros l Hl Hs. rewrite Hheap.
    destruct (decide (_ /\ _)) as [_|Hcap]; [reflexivity|].
    rewrite reset_ships_objs in *.
    destruct (decide (l ∈ (ships reg).*2 /\ _)) as [_|Hreg]; [reflexivity|].
    exfalso. destruct Hl as [Hl|Hl]; [apply Hreg | apply Hcap]; auto.
  - intros nm r Hnm. rewrite Hget.
    repeat case_decide; try (exfalso; naive_solver).
    destruct (cfg_get _ _ _); simpl; [|discriminate]. intros [= <-]. reflexivity.
  - intros nm r Hnm. rewrite Hget.
    repeat case_decide; try (exfalso; naive_solver).
    destruct (cfg_get _ _ _); simpl; [|discriminate]. intros [= <-]. reflexivity.
  - rewrite Hget. repeat case_decide; try reflexivity;
      destruct (cfg_get _ _ _); reflexivity.
  - rewrite Hget. repeat case_decide; try reflexivity;
      destruct (cfg_get _ _ _); reflexivity.
  - rewrite Hget. repeat case_decide; try reflexivity;
      destruct (cfg_get _ _ _); reflexivity.
  - intros category nm H1 H2. rewrite Hget.
    repeat case_decide; try reflexivity; exfalso; naive_solver.
  - intros nm Hnm. rewrite Hget.
    repeat case_decide; try reflexivity; exfalso; naive_solver.
  - intros nm Hnm. rewrite Hget.
    repeat case_decide; try reflexivity; exfalso; naive_solver.
  - intros l H1 H2. rewrite Hheap, reset_ships_objs.
    repeat case_decide; try reflexivity; exfalso; naive_solver.
Qed.

(** ** The reconciliation read path *)

Lemma refresh_discovered_app `{Externals} initial_load c es1 es2 h :
  refresh_discovered initial_load c (es1 ++ es2) h
  = refresh_discovered initial_load c es2 (refresh_discovered initial_load c es1 h).
Proof. unfold refresh_discovered. apply foldl_app. Qed.

(** An object that the loop does not visit is left alone. *)
Lemma refresh_discovered_frame `{Externals} initial_load c es : forall h l,
  l ∉ es.*2 -> refresh_discovered initial_load c es h l = h l.
Proof.
  unfold refresh_discovered.
  induction es as [|[[cn mn] l0] es IH]; intros h l Hl; [reflexivity|].
  cbn [foldl]. rewrite fmap_cons in Hl. apply not_elem_of_cons in Hl as [Hne Hl].
  rewrite IH by exact Hl.
  destruct (cfg_get c (get_category_from_module_type cn) mn); [|reflexivity].
  apply upd_ne. exact Hne.
Qed.

Lemma refresh_module_fields initial_load is_owned m :
  let m' := refresh_module initial_load is_owned m in
  (is_Some (owned_status m) ->
   owned_status m' = Some (PyBool is_owned) /\ blueprint_owned m' = blueprint_owned m)
  /\ (owned_status m = None -> is_Some (blueprint_owned m) ->
      blueprint_owned m' = Some (PyBool is_owned) /\ owned_status m' = None)
  /\ (owned_status m = None -> blueprint_owned m = None ->
      owned_status m' = None /\ blueprint_owned m' = None).
Proof.
  unfold refresh_module.
  destruct (owned_status m) as [v|] eqn:Eo, (blueprint_owned m) as [w|] eqn:Eb;
    destruct initial_load; simpl;
    repeat match goal with
    | |- context [match ownership_var ?x with _ => _ end] =>
        destruct (ownership_var x) eqn:?; simpl
    | |- context [if negb ?b then _ else _] => destruct b; simpl
    end;
    rewrite ?Eo, ?Eb;
    (split; [|split]); intros; try discriminate;
    try (exfalso; destruct_and?;
         match goal with H : is_Some None |- _ => destruct H; discriminate end);
    auto.
Qed.








(** ** Round trip: register, edit, reconcile *)

Lemma od_set_elem {V} (d : odict V) k v k' v' :
  (k', v') ∈ od_set d k v -> (k' = k /\ v' = v) \/ (k', v') ∈ d.
Proof.
  induction d as [|[k0 v0] d IH]; simpl.
  - intros Hin. apply list_elem_of_singleton in Hin. injection Hin as -> ->. auto.
  - destruct (String.eqb k0 k).
    + intros Hin. apply elem_of_cons in Hin as [[= -> ->]|Hin]; [auto|].
      right. right. exact Hin.
    + intros Hin. apply elem_of_cons in Hin as [[= -> ->]|Hin]; [right; left|].
      destruct (IH Hin) as [?|?]; [auto | right; right; assumption].
Qed.

(** Reconciling a registry mapping keeps a cached [owned_status] that agrees
    with every record the loop reads for that object. *)
Lemma refresh_ships_keeps c category b l d : forall h,
  (forall n r, (n, l) ∈ d -> cfg_get c category n = Some r -> owned r = b) ->
  owned_status (h l) = Some (PyBool b) ->
  owned_status (refresh_ships c category d h l) = Some (PyBool b).
Proof.
  unfold refresh_ships.
  induction d as [|[n0 l0] d IH]; intros h Hrec Hst; [exact Hst|].
  cbn [foldl]. apply IH.
  - intros n r Hin. apply Hrec. right. exact Hin.
  - destruct (cfg_get c category n0) as [r0|] eqn:E0; [|exact Hst].
    destruct (decide (l = l0)) as [->|Hne].
    + rewrite upd_eq. simpl. rewrite (Hrec n0 r0); [reflexivity | left | exact E0].
    + rewrite upd_ne by exact Hne. exact Hst.
Qed.

Lemma refresh_discovered_keeps `{Externals} initial_load c b l es : forall h,
  (forall cn mn r, (cn, mn, l) ∈ es ->
     cfg_get c (get_category_from_module_type cn) mn = Some r -> owned r = b) ->
  owned_status (h l) = Some (PyBool b) ->
  owned_status (refresh_discovered initial_load c es h l) = Some (PyBool b).
Proof.
  unfold refresh_discovered.
  induction es as [|[[cn0 mn0] l0] es IH]; intros h Hrec Hst; [exact Hst|].
  cbn [foldl]. apply IH.
  - intros cn mn r Hin. apply Hrec. right. exact Hin.
  - destruct (cfg_get c (get_category_from_module_type cn0) mn0) as [r0|] eqn:E0;
      [|exact Hst].
    destruct (decide (l = l0)) as [->|Hne].
    + rewrite upd_eq.
      destruct (refresh_module_fields initial_load (owned r0) (h l0)) as (H1 & _).
      destruct H1 as [-> _]; [rewrite Hst; eauto|].
      rewrite (Hrec cn0 mn0 r0); [reflexivity | left | exact E0].
    + rewrite upd_ne by exact Hne. exact Hst.
Qed.

(** The edit followed by reconciliation ends with [owned_status] true as
    soon as no record that reconciliation reads for the object says
    otherwise. *)
Lemma edit_reconcile_when_no_stale_record `{Externals} (st1 : BlueprintManager)
    (module_name : string) (ship : loc) :
  let st2 := update_ship_ownership module_name ship "owned" st1 in
  let st3 := refresh_registry_if_needed true st2 in
  (forall n r, (n, ship) ∈ ships (module_registry st1) ->
     cfg_get (blueprint_config st2) "ship_blueprints" n = Some r -> owned r = true) ->
  (forall n r, (n, ship) ∈ capital_ships (module_registry st1) ->
     cfg_get (blueprint_config st2) "capital_ship_blueprints" n = Some r ->
     owned r = true) ->
  (forall cn mn r, (cn, mn, ship) ∈ entities (discovered_modules st1) ->
     cfg_get (blueprint_config st2) (get_category_from_module_type cn) mn = Some r ->
     owned r = true) ->
  owned_status (objs st3 ship) = Some (PyBool true).
Proof.
  intros st2 st3 Hs Hc Hd. subst st3.
  unfold refresh_registry_if_needed. cbn [objs].
  apply refresh_discovered_keeps; [exact Hd|].
  apply refresh_ships_keeps; [exact Hc|].
  apply refresh_ships_keeps; [exact Hs|].
  subst st2. unfold update_ship_ownership. cbn [objs]. rewrite upd_eq. reflexivity.
Qed.

Lemma od_get_set {V} (d : odict V) k v : od_get (od_set d k v) k = Some v.
Proof.
  induction d as [|[k0 v0] d IH]; simpl.
  - rewrite String.eqb_refl. reflexivity.
  - destruct (String.eqb k0 k) eqn:E; simpl.
    + rewrite String.eqb_refl. reflexivity.
    + rewrite E. exact IH.
Qed.

Lemma not_elem_of_values {A B} (d : list (A * B)) a b : b ∉ d.*2 -> (a, b) ∉ d.
Proof.
  intros Hn Hin. apply Hn. apply list_elem_of_fmap. exists (a, b). auto.
Qed.

Lemma update_ship_ownership_get module_name module st category nm :
  cfg_get (blueprint_config (update_ship_ownership module_name module "owned" st))
    category nm
  = if decide ((ship_category (objs st module), module_name) = (category, nm))
    then Some (set_owned true
                 (default default_blueprint
                    (cfg_get (blueprint_config st) category nm)))
    else cfg_get (blueprint_config st) category nm.
Proof.
  rewrite update_ship_ownership_config. unfold update_blueprint_ownership.
  rewrite cfg_get_put. case_decide as Hk; [|reflexivity].
  injection Hk as <- <-. reflexivity.
Qed.

(** C8, amended: registering a ship (as a regular or as a capital ship),
    editing its ownership to "owned" through [update_ship_ownership] under
    its name and running the reconciliation read path yields
    [owned_status == true], provided every record that reconciliation reads
    for the ship, other than the one the edit writes, is owned: the records
    of "ship_blueprints" and "capital_ship_blueprints" under the names the
    registry mappings hold the ship under, and those of the resolved
    category and the name of each of its listings in [discovered_modules]. *)
Theorem register_edit_reconcile_owned `{Externals} (st : BlueprintManager)
    (ship : loc) (capital : bool) :
  let nm := name (objs st ship) in
  let reg :=
    if capital then register_capital_ship (objs st) ship (module_registry st)
    else register_ship (objs st) ship (module_registry st) in
  let st3 :=
    refresh_registry_if_needed true
      (update_ship_ownership nm ship "owned"
         (mkManager (objs st) reg (discovered_modules st) (blueprint_config st)
            (status_var st))) in
  let not_stale category n :=
    (category, n) = (ship_category (objs st ship), nm)
    \/ forall r, cfg_get (blueprint_config st) category n = Some r -> owned r = true in
  (forall n, (n, ship) ∈ ships reg -> not_stale "ship_blueprints" n) ->
  (forall n, (n, ship) ∈ capital_ships reg -> not_stale "capital_ship_blueprints" n) ->
  (forall cn mn, (cn, mn, ship) ∈ entities (discovered_modules st) ->
     not_stale (get_category_from_module_type cn) mn) ->
  (if capital then od_get (capital_ships (module_registry st3)) nm
   else get_ship (module_registry st3) nm) = Some ship
  /\ owned_status (objs st3 ship) = Some (PyBool true).
Proof.
  intros nm reg st3 not_stale Hs Hc Hd.
  assert (Hread : forall category n r,
            not_stale category n ->
            cfg_get (blueprint_config
                       (update_ship_ownership nm ship "owned"
                          (mkManager (objs st) reg (discovered_modules st)
                             (blueprint_config st) (status_var st)))) category n
            = Some r -> owned r = true).
  { intros category n r Hns. rewrite update_ship_ownership_get. cbn [objs blueprint_config].
    case_decide as Hk; [intros [= <-]; reflexivity|].
    destruct Hns as [Heq|Hown]; [congruence | apply Hown]. }
  split.
  - subst st3 reg. destruct capital; cbn; apply od_get_set.
  - apply edit_reconcile_when_no_stale_record.
    + intros n r Hin. apply Hread, Hs, Hin.
    + intros n r Hin. apply Hread, Hc, Hin.
    + intros cn mn r Hin. apply Hread, Hd, Hin.
Qed.

(** ** Bulk save: what is written *)













Lemma update_all_ownership_values_unfold `{Externals} st :
  let es := entities (discovered_modules st) in
  let s3 := te_pass es
              (me_pass es
                 (objs st, ownership_pass (objs st) es (blueprint_config st))) in
  objs (snd (update_all_ownership_values st)) = fst s3
  /\ blueprint_config (snd (update_all_ownership_values st)) = snd s3
  /\ discovered_modules (snd (update_all_ownership_values st)) = discovered_modules st
  /\ fst (update_all_ownership_values st) = save_blueprint_ownership (snd s3).
Proof.
  intros es s3. unfold update_all_ownership_values. fold es. fold s3.
  destruct s3 as [h3 c3]. auto.
Qed.


(** ** Bulk save: the first loop *)


Lemma ownership_pass_app `{Externals} h es1 es2 c :
  ownership_pass h (es1 ++ es2) c = ownership_pass h es2 (ownership_pass h es1 c).
Proof. unfold ownership_pass. apply foldl_app. Qed.

(** ** Bulk save as a list of writes *)

Lemma apply_patch_compose q p r :
  apply_patch (compose q p) r = apply_patch q (apply_patch p r).
Proof.
  destruct q as [[?|] [?|] [?|] [?|]], p as [[?|] [?|] [?|] [?|]]; reflexivity.
Qed.

Lemma apply_patch_idem p r : apply_patch p (apply_patch p r) = apply_patch p r.
Proof. destruct p as [[?|] [?|] [?|] [?|]]; reflexivity. Qed.

Lemma run_ops_app ops1 ops2 c :
  run_ops (ops1 ++ ops2) c = run_ops ops2 (run_ops ops1 c).
Proof. unfold run_ops. apply foldl_app. Qed.

(** A list of writes acts on each pair through its [effect]. *)
Lemma run_ops_get ops : forall c category nm,
  cfg_get (run_ops ops c) category nm
  = match effect ops category nm with
    | Some p => Some (apply_patch p (default default_blueprint (cfg_get c category nm)))
    | None => cfg_get c category nm
    end.
Proof.
  unfold run_ops.
  induction ops as [|[[category' nm'] p] ops IH]; intros c category nm; [reflexivity|].
  cbn [foldl effect]. rewrite IH. unfold apply_op. rewrite cfg_get_put.
  case_decide as Hk.
  - destruct (effect ops category nm) as [q|]; simpl.
    + rewrite apply_patch_compose. injection Hk as -> ->. reflexivity.
    + injection Hk as -> ->. reflexivity.
  - reflexivity.
Qed.

Lemma run_ops_category ops : forall c category,
  is_Some (run_ops ops c !! category)
  <-> is_Some (c !! category) \/ category ∈ (ops.*1).*1.
Proof.
  unfold run_ops.
  induction ops as [|[[category' nm'] p] ops IH]; intros c category.
  - simpl. split; [auto | intros [?|Hin]; [done | inversion Hin]].
  - cbn [foldl]. rewrite IH. unfold apply_op. rewrite cfg_put_category.
    rewrite !fmap_cons. cbn [fst]. rewrite elem_of_cons. naive_solver.
Qed.

Lemma run_ops_idem ops c : run_ops ops (run_ops ops c) = run_ops ops c.
Proof.
  apply cfg_ext.
  - intros category. rewrite !run_ops_category. tauto.
  - intros category nm. rewrite (run_ops_get ops (run_ops ops c)).
    rewrite (run_ops_get ops c).
    destruct (effect ops category nm) as [p|]; [|reflexivity].
    simpl. rewrite apply_patch_idem. reflexivity.
Qed.

(** The first loop is a list of writes, whatever the texts. *)
Lemma ownership_step_ops `{Externals} h c e :
  ownership_step h c e = run_ops (ownership_ops h e) c.
Proof.
  destruct e as [[cn mn] l]. unfold ownership_step, ownership_ops, view.
  destruct (String.eqb (get_category_from_module_type cn) ""); [reflexivity|].
  destruct (String.eqb cn "capital_components").
  - destruct (ownership_var (h l)) as [ov|]; [|reflexivity].
    unfold run_ops. cbn [foldl apply_op].
    destruct (cfg_get c "component_blueprints" mn) as [r|]; reflexivity.
  - destruct (ownership_var (h l)) as [ov|]; [|reflexivity].
    destruct (read_digits (me_var (h l))) as [a|]; [|reflexivity].
    destruct (read_digits (te_var (h l))) as [b|]; [|reflexivity].
    unfold run_ops. cbn [foldl apply_op].
    destruct (cfg_get c (get_category_from_module_type cn) mn) as [r|]; reflexivity.
Qed.

Lemma ownership_pass_ops `{Externals} h es : forall c,
  ownership_pass h es c = run_ops (flat_map (ownership_ops h) es) c.
Proof.
  unfold ownership_pass. induction es as [|e es IH]; intros c; [reflexivity|].
  cbn [foldl flat_map]. rewrite run_ops_app, IH, ownership_step_ops. reflexivity.
Qed.

Lemma read_digits_zero `{Externals} : read_digits (Some "0") = Some 0.
Proof.
  unfold read_digits. destruct (py_isdigit "0"); [apply py_int_zero | reflexivity].
Qed.

Lemma read_digits_negative `{Externals} s v :
  py_int s = Some v -> v < 0 -> read_digits (Some s) = Some 0.
Proof.
  intros Hs Hv. unfold read_digits. destruct (py_isdigit s) eqn:Hd; [|reflexivity].
  pose proof (py_isdigit_nonneg s v Hd Hs). lia.
Qed.

(** Resetting a negative text to "0" changes nothing that the bulk save
    reads. *)
Lemma view_set_me_zero `{Externals} m s v :
  me_var m = Some s -> py_int s = Some v -> v < 0 ->
  view (set_me_var "0" m) = view m.
Proof.
  intros Hm Hs Hv. unfold view, me_reading, te_reading.
  cbn [set_me_var set_te_var me_var te_var ownership_var invented_var].
  rewrite Hm. cbn [option_map].
  rewrite read_digits_zero, (read_digits_negative s v Hs Hv).
  rewrite py_int_zero, Hs. cbn [option_map].
  replace (Z.max 0 v) with (Z.max 0 0) by lia. reflexivity.
Qed.

Lemma view_set_te_zero `{Externals} m s v :
  te_var m = Some s -> py_int s = Some v -> v < 0 ->
  view (set_te_var "0" m) = view m.
Proof.
  intros Hm Hs Hv. unfold view, me_reading, te_reading.
  cbn [set_me_var set_te_var me_var te_var ownership_var invented_var].
  rewrite Hm. cbn [option_map].
  rewrite read_digits_zero, (read_digits_negative s v Hs Hv).
  rewrite py_int_zero, Hs. cbn [option_map].
  replace (Z.max 0 v) with (Z.max 0 0) by lia. reflexivity.
Qed.

Lemma view_upd `{Externals} h l m :
  view m = view (h l) -> forall l', view (upd h l m l') = view (h l').
Proof.
  intros Hv l'. unfold upd. destruct (Nat.eqb_spec l' l) as [->|]; auto.
Qed.

(** On an entity whose ME text [int] reads, the second loop performs the
    write [me_ops] and leaves every object as the bulk save sees it. *)
Lemma me_step_ops `{Externals} h c e :
  me_reading (h e.2) <> Some None ->
  snd (me_step (h, c) e) = run_ops (me_ops h e) c
  /\ forall l', view (fst (me_step (h, c) e) l') = view (h l').
Proof.
  destruct e as [[cn mn] l]. cbn [snd]. intros Hnum.
  unfold me_step, me_ops, view.
  unfold me_reading in *. destruct (me_var (h l)) as [s|] eqn:Hm; [|split; reflexivity].
  cbn [option_map] in Hnum |- *.
  destruct (py_int s) as [v|] eqn:Hs; [|exfalso; apply Hnum; reflexivity].
  cbn [option_map].
  assert (Hwrite : forall x,
    (if String.eqb cn "capital_components"
     then match cfg_get c "component_blueprints" mn with
          | Some r => cfg_put c "component_blueprints" mn (set_me x r)
          | None => cfg_put c "component_blueprints" mn (mkBlueprint false false x 0)
          end
     else update_blueprint_me c (get_category_from_module_type cn) mn x)
    = run_ops [(efficiency_category cn, mn, mkPatch None None (Some x) None)] c).
  { intros x. unfold run_ops, efficiency_category. cbn [foldl apply_op].
    destruct (String.eqb cn "capital_components"); [|reflexivity].
    destruct (cfg_get c "component_blueprints" mn); reflexivity. }
  destruct (Z.ltb_spec v 0) as [Hneg|Hpos]; cbv beta iota.
  - replace (Z.max 0 v) with 0 by lia. rewrite <- Hwrite.
    split.
    + destruct (String.eqb cn "capital_components"); cbn [snd]; [|reflexivity].
      destruct (cfg_get c "component_blueprints" mn); reflexivity.
    + assert (Hh : forall l', view (upd h l (set_me_var "0" (h l)) l') = view (h l')).
      { apply view_upd. eapply view_set_me_zero; eauto. }
      destruct (String.eqb cn "capital_components"); cbn [fst]; exact Hh.
  - replace (Z.max 0 v) with v by lia. rewrite <- Hwrite.
    split.
    + destruct (String.eqb cn "capital_components"); cbn [snd]; [|reflexivity].
      destruct (cfg_get c "component_blueprints" mn); reflexivity.
    + destruct (String.eqb cn "capital_components"); cbn [fst]; reflexivity.
Qed.

Lemma te_step_ops `{Externals} h c e :
  te_reading (h e.2) <> Some None ->
  snd (te_step (h, c) e) = run_ops (te_ops h e) c
  /\ forall l', view (fst (te_step (h, c) e) l') = view (h l').
Proof.
  destruct e as [[cn mn] l]. cbn [snd]. intros Hnum.
  unfold te_step, te_ops, view.
  unfold te_reading in *. destruct (te_var (h l)) as [s|] eqn:Hm; [|split; reflexivity].
  cbn [option_map] in Hnum |- *.
  destruct (py_int s) as [v|] eqn:Hs; [|exfalso; apply Hnum; reflexivity].
  cbn [option_map].
  assert (Hwrite : forall x,
    (if String.eqb cn "capital_components"
     then match cfg_get c "component_blueprints" mn with
          | Some r => cfg_put c "component_blueprints" mn (set_te x r)
          | None => cfg_put c "component_blueprints" mn (mkBlueprint false false 0 x)
          end
     else update_blueprint_te c (get_category_from_module_type cn) mn x)
    = run_ops [(efficiency_category cn, mn, mkPatch None None None (Some x))] c).
  { intros x. unfold run_ops, efficiency_category. cbn [foldl apply_op].
    destruct (String.eqb cn "capital_components"); [|reflexivity].
    destruct (cfg_get c "component_blueprints" mn); reflexivity. }
  destruct (Z.ltb_spec v 0) as [Hneg|Hpos]; cbv beta iota.
  - replace (Z.max 0 v) with 0 by lia. rewrite <- Hwrite.
    split.
    + destruct (String.eqb cn "capital_components"); cbn [snd]; [|reflexivity].
      destruct (cfg_get c "component_blueprints" mn); reflexivity.
    + assert (Hh : forall l', view (upd h l (set_te_var "0" (h l)) l') = view (h l')).
      { apply view_upd. eapply view_set_te_zero; eauto. }
      destruct (String.eqb cn "capital_components"); cbn [fst]; exact Hh.
  - replace (Z.max 0 v) with v by lia. rewrite <- Hwrite.
    split.
    + destruct (String.eqb cn "capital_components"); cbn [snd]; [|reflexivity].
      destruct (cfg_get c "component_blueprints" mn); reflexivity.
    + destruct (String.eqb cn "capital_components"); cbn [fst]; reflexivity.
Qed.

(** The writes depend on the objects only through [view]. *)
Lemma ops_view `{Externals} (h h0 : heap) e :
  (forall l, view (h l) = view (h0 l)) ->
  ownership_ops h e = ownership_ops h0 e
  /\ me_ops h e = me_ops h0 e
  /\ te_ops h e = te_ops h0 e.
Proof.
  intros Hv. destruct e as [[cn mn] l]. unfold ownership_ops, me_ops, te_ops.
  rewrite (Hv l). auto.
Qed.

Lemma flat_map_ops_view `{Externals} (h h0 : heap) es :
  (forall l, view (h l) = view (h0 l)) ->
  bulk_ops h es = bulk_ops h0 es.
Proof.
  intros Hv. unfold bulk_ops.
  assert (Ho : flat_map (ownership_ops h) es = flat_map (ownership_ops h0) es
               /\ flat_map (me_ops h) es = flat_map (me_ops h0) es
               /\ flat_map (te_ops h) es = flat_map (te_ops h0) es).
  { induction es as [|e es (IH1 & IH2 & IH3)]; [auto|]. cbn [flat_map].
    destruct (ops_view h h0 e Hv) as (-> & -> & ->).
    rewrite IH1, IH2, IH3. auto. }
  destruct Ho as (-> & -> & ->). reflexivity.
Qed.

Lemma view_readings `{Externals} m m0 :
  view m = view m0 -> me_reading m = me_reading m0 /\ te_reading m = te_reading m0.
Proof. unfold view. intros [= _ _ _ _ -> ->]. auto. Qed.

Lemma me_pass_ops `{Externals} (h0 : heap) es : forall h c,
  (forall l, view (h l) = view (h0 l)) ->
  (forall e, e ∈ es -> me_reading (h0 e.2) <> Some None) ->
  snd (me_pass es (h, c)) = run_ops (flat_map (me_ops h0) es) c
  /\ forall l, view (fst (me_pass es (h, c)) l) = view (h0 l).
Proof.
  unfold me_pass. induction es as [|e es IH]; intros h c Hv Hnum; [auto|].
  cbn [foldl flat_map].
  destruct (me_step_ops h c e) as [Hc Hh].
  { destruct (view_readings _ _ (Hv e.2)) as [-> _]. apply Hnum. left. }
  destruct (me_step (h, c) e) as [h1 c1]. cbn [fst snd] in Hc, Hh. subst c1.
  rewrite run_ops_app. destruct (ops_view h h0 e Hv) as (_ & -> & _).
  apply IH.
  - intros l. rewrite Hh. apply Hv.
  - intros e' He'. apply Hnum. right. exact He'.
Qed.

Lemma te_pass_ops `{Externals} (h0 : heap) es : forall h c,
  (forall l, view (h l) = view (h0 l)) ->
  (forall e, e ∈ es -> te_reading (h0 e.2) <> Some None) ->
  snd (te_pass es (h, c)) = run_ops (flat_map (te_ops h0) es) c
  /\ forall l, view (fst (te_pass es (h, c)) l) = view (h0 l).
Proof.
  unfold te_pass. induction es as [|e es IH]; intros h c Hv Hnum; [auto|].
  cbn [foldl flat_map].
  destruct (te_step_ops h c e) as [Hc Hh].
  { destruct (view_readings _ _ (Hv e.2)) as [_ ->]. apply Hnum. left. }
  destruct (te_step (h, c) e) as [h1 c1]. cbn [fst snd] in Hc, Hh. subst c1.
  rewrite run_ops_app. destruct (ops_view h h0 e Hv) as (_ & _ & ->).
  apply IH.
  - intros l. rewrite Hh. apply Hv.
  - intros e' He'. apply Hnum. right. exact He'.
Qed.

(** With texts that [int] reads, a bulk save is the list of writes
    [bulk_ops], and it leaves every object as a bulk save sees it. *)
Lemma update_all_ownership_values_ops `{Externals} (st : BlueprintManager) :
  (forall e, e ∈ entities (discovered_modules st) -> numeric_texts (objs st e.2)) ->
  blueprint_config (snd (update_all_ownership_values st))
  = run_ops (bulk_ops (objs st) (entities (discovered_modules st))) (blueprint_config st)
  /\ forall l, view (objs (snd (update_all_ownership_values st)) l) = view (objs st l).
Proof.
  intros Hnum.
  destruct (update_all_ownership_values_unfold st) as (-> & -> & _).
  remember (entities (discovered_modules st)) as es eqn:Hes.
  rewrite ownership_pass_ops.
  remember (run_ops (flat_map (ownership_ops (objs st)) es) (blueprint_config st))
    as c1 eqn:Hc1.
  destruct (me_pass_ops (objs st) es (objs st) c1) as [Hc2 Hh2].
  { reflexivity. }
  { intros e He. apply (Hnum e He). }
  rewrite (surjective_pairing (me_pass es (objs st, c1))).
  destruct (te_pass_ops (objs st) es (fst (me_pass es (objs st, c1)))
              (snd (me_pass es (objs st, c1)))) as [Hc3 Hh3].
  { exact Hh2. }
  { intros e He. apply (Hnum e He). }
  split; [|exact Hh3].
  etransitivity; [exact Hc3|]. unfold bulk_ops. rewrite !run_ops_app.
  f_equal. etransitivity; [exact Hc2|]. rewrite Hc1. reflexivity.
Qed.

Lemma efficiency_category_capital `{Externals} cn :
  String.eqb cn "capital_components" = true ->
  efficiency_category cn = "component_blueprints".
Proof. unfold efficiency_category. intros ->. reflexivity. Qed.

Lemma efficiency_category_other `{Externals} cn :
  String.eqb cn "capital_components" = false ->
  efficiency_category cn = get_category_from_module_type cn.
Proof. unfold efficiency_category. intros ->. reflexivity. Qed.

Lemma effect_none ops category nm :
  (forall o, o ∈ ops -> (o.1.1, o.1.2) <> (category, nm)) ->
  effect ops category nm = None.
Proof.
  induction ops as [|[[c0 n0] p] ops IH]; intros Hk; [reflexivity|].
  cbn [effect]. rewrite decide_False by (apply (Hk (c0, n0, p)); left).
  apply IH. intros o Ho. apply Hk. right. exact Ho.
Qed.

Lemma effect_app_l ops1 ops2 category nm :
  effect ops2 category nm = None ->
  effect (ops1 ++ ops2) category nm = effect ops1 category nm.
Proof.
  intros H2. induction ops1 as [|[[c0 n0] p] ops IH]; [exact H2|].
  cbn [app effect]. rewrite IH. reflexivity.
Qed.

Lemma effect_app_r ops1 ops2 category nm :
  effect ops1 category nm = None ->
  effect (ops1 ++ ops2) category nm = effect ops2 category nm.
Proof.
  induction ops1 as [|[[c0 n0] p] ops IH]; [reflexivity|].
  cbn [app effect]. case_decide; [discriminate | exact IH].
Qed.

(** Every write for an entity goes to the pair of its name and the category
    its key resolves to. *)
Lemma entity_ops_key `{Externals} h e o :
  o ∈ ownership_ops h e \/ o ∈ me_ops h e \/ o ∈ te_ops h e ->
  (o.1.1, o.1.2) = (efficiency_category e.1.1, e.1.2).
Proof.
  destruct e as [[cn mn] l]. unfold ownership_ops, me_ops, te_ops, view.
  cbn [fst snd]. intros [Ho|[Ho|Ho]].
  - destruct (String.eqb (get_category_from_module_type cn) ""); [inversion Ho|].
    destruct (String.eqb cn "capital_components") eqn:Hc.
    + destruct (ownership_var (h l)); [|inversion Ho].
      apply list_elem_of_singleton in Ho as ->.
      rewrite (efficiency_category_capital cn Hc). reflexivity.
    + destruct (ownership_var (h l)); [|inversion Ho].
      destruct (read_digits (me_var (h l))); [|inversion Ho].
      destruct (read_digits (te_var (h l))); [|inversion Ho].
      apply list_elem_of_singleton in Ho as ->.
      rewrite (efficiency_category_other cn Hc). reflexivity.
  - destruct (me_reading (h l)) as [[v|]|]; try (inversion Ho; fail).
    apply list_elem_of_singleton in Ho as ->. reflexivity.
  - destruct (te_reading (h l)) as [[v|]|]; try (inversion Ho; fail).
    apply list_elem_of_singleton in Ho as ->. reflexivity.
Qed.

(** Among the writes of a pass, only those of the entity that alone has a
    pair count for that pair. *)
Lemma effect_flat_map `{Externals}
    (ops : string * string * loc -> list (string * string * patch))
    pre e post category nm :
  (forall e' o, o ∈ ops e' -> (o.1.1, o.1.2) = (efficiency_category e'.1.1, e'.1.2)) ->
  (forall e', e' ∈ (pre ++ post)%list ->
     (efficiency_category e'.1.1, e'.1.2) <> (category, nm)) ->
  effect (flat_map ops (pre ++ e :: post)) category nm = effect (ops e) category nm.
Proof.
  intros Hkey Hother.
  assert (Hnone : forall es, (forall e', e' ∈ es -> e' ∈ (pre ++ post)%list) ->
                    effect (flat_map ops es) category nm = None).
  { intros es Hsub. apply effect_none. intros o Ho.
    apply list_elem_of_In, List.in_flat_map in Ho as (e' & He' & Ho).
    apply list_elem_of_In in He', Ho. rewrite (Hkey e' o Ho). apply Hother, Hsub, He'. }
  rewrite List.flat_map_app. cbn [flat_map].
  rewrite effect_app_r by (apply Hnone; intros e' He'; apply elem_of_app; auto).
  apply effect_app_l. apply Hnone. intros e' He'. apply elem_of_app. auto.
Qed.

Lemma effect_singleton category nm p :
  effect [(category, nm, p)] category nm = Some p.
Proof. cbn [effect]. rewrite decide_True by reflexivity. reflexivity. Qed.

(** ** Bulk save on arbitrary texts *)

Lemma written_value_zero `{Externals} : written_value "0" = 0.
Proof. unfold written_value. rewrite py_int_zero. reflexivity. Qed.



Lemma text_settled_refl `{Externals} t : text_settled t t.
Proof. left. reflexivity. Qed.

Lemma settled_refl `{Externals} m : settled m m.
Proof. repeat split; apply text_settled_refl. Qed.

(** A text that the loop resets stays settled. *)
Lemma text_settled_reset `{Externals} t0 s :
  text_settled t0 (Some s) ->
  py_int s = None \/ (exists v, py_int s = Some v /\ v < 0) ->
  text_settled t0 (Some "0").
Proof.
  intros [Heq|[Heq Hs]] Hbad.
  - right. split; [reflexivity|]. exists s. auto.
  - right. split; [reflexivity | exact Hs].
Qed.

Lemma text_settled_None `{Externals} t : text_settled None t -> t = None.
Proof. intros [->|[_ (s & Hs & _)]]; [reflexivity | discriminate]. Qed.

(** A settled text is written as the text before would be, and [int] reads
    it if it read the text before. *)
Lemma text_settled_Some `{Externals} s t :
  text_settled (Some s) t ->
  exists s', t = Some s'
             /\ written_value s' = written_value s
             /\ (is_Some (py_int s) -> is_Some (py_int s'))
             /\ (py_int s' = None -> s' = s).
Proof.
  intros [->|[-> (s0 & [= <-] & Hbad)]].
  - exists s. auto.
  - exists "0". split; [reflexivity|]. rewrite written_value_zero.
    split; [|split].
    + unfold written_value.
      destruct Hbad as [->|(v & -> & Hv)]; [reflexivity | lia].
    + intros _. rewrite py_int_zero. eauto.
    + rewrite py_int_zero. discriminate.
Qed.

Lemma settled_upd `{Externals} (h0 h : heap) l m :
  (forall l', settled (h0 l') (h l')) -> settled (h0 l) m ->
  forall l', settled (h0 l') (upd h l m l').
Proof.
  intros Hs Hm l'. unfold upd. destruct (Nat.eqb_spec l' l) as [->|]; auto.
Qed.

Lemma me_step_settled `{Externals} (h0 h : heap) c e :
  (forall l, settled (h0 l) (h l)) ->
  forall l, settled (h0 l) (fst (me_step (h, c) e) l).
Proof.
  destruct e as [[cn mn] l]. intros Hs. unfold me_step.
  destruct (me_var (h l)) as [s|] eqn:Hm; [|exact Hs].
  assert (Hreset : py_int s = None \/ (exists v, py_int s = Some v /\ v < 0) ->
                   forall l', settled (h0 l') (upd h l (set_me_var "0" (h l)) l')).
  { intros Hbad. apply settled_upd; [exact Hs|].
    destruct (Hs l) as (Ho & Hi & Hme & Hte). rewrite Hm in Hme.
    repeat split; cbn; try assumption. eapply text_settled_reset; eauto. }
  destruct (py_int s) as [v|] eqn:Hv.
  - destruct (Z.ltb_spec v 0); cbv beta iota;
      destruct (String.eqb cn "capital_components"); cbn [fst];
      first [exact Hs | apply Hreset; right; eauto].
  - cbv beta iota zeta.
    destruct (String.eqb cn "capital_components"); cbn [fst]; apply Hreset; auto.
Qed.

Lemma te_step_settled `{Externals} (h0 h : heap) c e :
  (forall l, settled (h0 l) (h l)) ->
  forall l, settled (h0 l) (fst (te_step (h, c) e) l).
Proof.
  destruct e as [[cn mn] l]. intros Hs. unfold te_step.
  destruct (te_var (h l)) as [s|] eqn:Hm; [|exact Hs].
  assert (Hreset : py_int s = None \/ (exists v, py_int s = Some v /\ v < 0) ->
                   forall l', settled (h0 l') (upd h l (set_te_var "0" (h l)) l')).
  { intros Hbad. apply settled_upd; [exact Hs|].
    destruct (Hs l) as (Ho & Hi & Hme & Hte). rewrite Hm in Hte.
    repeat split; cbn; try assumption. eapply text_settled_reset; eauto. }
  destruct (py_int s) as [v|] eqn:Hv.
  - destruct (Z.ltb_spec v 0); cbv beta iota;
      destruct (String.eqb cn "capital_components"); cbn [fst];
      first [exact Hs | apply Hreset; right; eauto].
  - cbv beta iota zeta.
    destruct (String.eqb cn "capital_components"); cbn [fst]; apply Hreset; auto.
Qed.



Lemma me_pass_settled `{Externals} (h0 : heap) es : forall (h : heap) c,
  (forall l, settled (h0 l) (h l)) ->
  forall l, settled (h0 l) (fst (me_pass es (h, c)) l).
Proof.
  unfold me_pass. induction es as [|e es IH]; intros h c Hs; [exact Hs|].
  cbn [foldl]. pose proof (me_step_settled h0 h c e Hs) as Hs1.
  destruct (me_step (h, c) e) as [h1 c1]. apply IH. exact Hs1.
Qed.

Lemma te_pass_settled `{Externals} (h0 : heap) es : forall (h : heap) c,
  (forall l, settled (h0 l) (h l)) ->
  forall l, settled (h0 l) (fst (te_pass es (h, c)) l).
Proof.
  unfold te_pass. induction es as [|e es IH]; intros h c Hs; [exact Hs|].
  cbn [foldl]. pose proof (te_step_settled h0 h c e Hs) as Hs1.
  destruct (te_step (h, c) e) as [h1 c1]. apply IH. exact Hs1.
Qed.











(** ** Bulk save: an entity whose processing raises *)











(** ** Bulk save: idempotence on arbitrary texts *)

Lemma read_digits_settled `{Externals} t0 t :
  text_settled t0 t -> read_digits t0 <> None -> read_digits t = read_digits t0.
Proof.
  intros [->|[-> (s & -> & Hbad)]] Hr; [reflexivity|].
  rewrite read_digits_zero.
  destruct Hbad as [Hn|(v & Hv & Hneg)].
  - unfold read_digits in *. destruct (py_isdigit s); [congruence | reflexivity].
  - symmetry. eapply read_digits_negative; eauto.
Qed.

Lemma ownership_ops_settled `{Externals} (h0 h : heap) e :
  (forall l, settled (h0 l) (h l)) ->
  ~ ownership_step_raises h0 e ->
  ownership_ops h e = ownership_ops h0 e.
Proof.
  destruct e as [[cn mn] l]. intros Hs Hnr.
  destruct (Hs l) as (Ho & Hi & Hme & Hte).
  unfold ownership_ops, view. rewrite Ho, Hi.
  destruct (String.eqb (get_category_from_module_type cn) "") eqn:Hcat; [reflexivity|].
  destruct (String.eqb cn "capital_components") eqn:Hcap; [reflexivity|].
  destruct (ownership_var (h0 l)) as [ov|] eqn:Hov; [|reflexivity].
  assert (Hm : read_digits (me_var (h0 l)) <> None).
  { intros Hm. apply Hnr. repeat split;
      [apply String.eqb_neq, Hcat | apply String.eqb_neq, Hcap | rewrite Hov; eauto | auto]. }
  assert (Ht : read_digits (te_var (h0 l)) <> None).
  { intros Ht. apply Hnr. repeat split;
      [apply String.eqb_neq, Hcat | apply String.eqb_neq, Hcap | rewrite Hov; eauto | auto]. }
  rewrite (read_digits_settled _ _ Hme Hm), (read_digits_settled _ _ Hte Ht).
  reflexivity.
Qed.

Lemma me_write_settled `{Externals} (h0 h : heap) e :
  (forall l, settled (h0 l) (h l)) -> me_write h e = me_write h0 e.
Proof.
  destruct e as [[cn mn] l]. intros Hs. destruct (Hs l) as (_ & _ & Hme & _).
  unfold me_write. destruct (me_var (h0 l)) as [s|].
  - destruct (text_settled_Some _ _ Hme) as (s' & -> & -> & _). reflexivity.
  - rewrite (text_settled_None _ Hme). reflexivity.
Qed.

Lemma te_write_settled `{Externals} (h0 h : heap) e :
  (forall l, settled (h0 l) (h l)) -> te_write h e = te_write h0 e.
Proof.
  destruct e as [[cn mn] l]. intros Hs. destruct (Hs l) as (_ & _ & _ & Hte).
  unfold te_write. destruct (te_var (h0 l)) as [s|].
  - destruct (text_settled_Some _ _ Hte) as (s' & -> & -> & _). reflexivity.
  - rewrite (text_settled_None _ Hte). reflexivity.
Qed.

(** A text that [int] rejects has not been reset: it is the text before. *)
Lemma settled_unreadable `{Externals} t0 s :
  text_settled t0 (Some s) -> py_int s = None -> t0 = Some s.
Proof.
  intros [<-|[[= ->] _]] Hs; [reflexivity|].
  rewrite py_int_zero in Hs. discriminate.
Qed.

(** The second loop performs the write [me_write], provided the record of a
    capital component whose text [int] rejects exists. *)
Lemma me_step_write `{Externals} (h : heap) c cn mn l :
  (cn = "capital_components" -> me_reading (h l) = Some None ->
   is_Some (cfg_get c "component_blueprints" mn)) ->
  snd (me_step (h, c) (cn, mn, l)) = run_ops (me_write h (cn, mn, l)) c.
Proof.
  intros Hrec. unfold me_step, me_write, written_value, me_reading in *.
  destruct (me_var (h l)) as [s|] eqn:Hm; [|reflexivity].
  cbn [option_map] in Hrec.
  assert (Hwrite : forall x,
    (if String.eqb cn "capital_components"
     then match cfg_get c "component_blueprints" mn with
          | Some r => cfg_put c "component_blueprints" mn (set_me x r)
          | None => cfg_put c "component_blueprints" mn (mkBlueprint false false x 0)
          end
     else update_blueprint_me c (get_category_from_module_type cn) mn x)
    = run_ops [(efficiency_category cn, mn, mkPatch None None (Some x) None)] c).
  { intros x. unfold run_ops, efficiency_category. cbn [foldl apply_op].
    destruct (String.eqb cn "capital_components"); [|reflexivity].
    destruct (cfg_get c "component_blueprints" mn); reflexivity. }
  destruct (py_int s) as [v|] eqn:Hs.
  - destruct (Z.ltb_spec v 0) as [Hneg|Hpos]; cbv beta iota;
      [replace (Z.max 0 v) with 0 by lia | replace (Z.max 0 v) with v by lia];
      rewrite <- Hwrite;
      (destruct (String.eqb cn "capital_components"); cbn [snd]; [|reflexivity]);
      destruct (cfg_get c "component_blueprints" mn); reflexivity.
  - cbv beta iota zeta. rewrite <- Hwrite.
    destruct (String.eqb_spec cn "capital_components") as [Hcap|Hcap];
      cbn [snd]; [|reflexivity].
    destruct (Hrec Hcap eq_refl) as [r ->]. reflexivity.
Qed.

Lemma te_step_write `{Externals} (h : heap) c cn mn l :
  (cn = "capital_components" -> te_reading (h l) = Some None ->
   is_Some (cfg_get c "component_blueprints" mn)) ->
  snd (te_step (h, c) (cn, mn, l)) = run_ops (te_write h (cn, mn, l)) c.
Proof.
  intros Hrec. unfold te_step, te_write, written_value, te_reading in *.
  destruct (te_var (h l)) as [s|] eqn:Hm; [|reflexivity].
  cbn [option_map] in Hrec.
  assert (Hwrite : forall x,
    (if String.eqb cn "capital_components"
     then match cfg_get c "component_blueprints" mn with
          | Some r => cfg_put c "component_blueprints" mn (set_te x r)
          | None => cfg_put c "component_blueprints" mn (mkBlueprint false false 0 x)
          end
     else update_blueprint_te c (get_category_from_module_type cn) mn x)
    = run_ops [(efficiency_category cn, mn, mkPatch None None None (Some x))] c).
  { intros x. unfold run_ops, efficiency_category. cbn [foldl apply_op].
    destruct (String.eqb cn "capital_components"); [|reflexivity].
    destruct (cfg_get c "component_blueprints" mn); reflexivity. }
  destruct (py_int s) as [v|] eqn:Hs.
  - destruct (Z.ltb_spec v 0) as [Hneg|Hpos]; cbv beta iota;
      [replace (Z.max 0 v) with 0 by lia | replace (Z.max 0 v) with v by lia];
      rewrite <- Hwrite;
      (destruct (String.eqb cn "capital_components"); cbn [snd]; [|reflexivity]);
      destruct (cfg_get c "component_blueprints" mn); reflexivity.
  - cbv beta iota zeta. rewrite <- Hwrite.
    destruct (String.eqb_spec cn "capital_components") as [Hcap|Hcap];
      cbn [snd]; [|reflexivity].
    destruct (Hrec Hcap eq_refl) as [r ->]. reflexivity.
Qed.

Lemma run_ops_is_Some ops c category nm :
  is_Some (cfg_get c category nm) -> is_Some (cfg_get (run_ops ops c) category nm).
Proof.
  intros Hc. rewrite run_ops_get. destruct (effect ops category nm); eauto.
Qed.

Lemma me_pass_write `{Externals} (h0 : heap) es : forall (h : heap) c,
  (forall l, settled (h0 l) (h l)) ->
  (forall cn mn l, (cn, mn, l) ∈ es -> cn = "capital_components" ->
     me_reading (h0 l) = Some None ->
     is_Some (cfg_get c "component_blueprints" mn)) ->
  snd (me_pass es (h, c)) = run_ops (flat_map (me_write h0) es) c.
Proof.
  unfold me_pass. induction es as [|[[cn mn] l] es IH]; intros h c Hs Hrec; [reflexivity|].
  cbn [foldl flat_map]. rewrite run_ops_app.
  assert (Hstep : snd (me_step (h, c) (cn, mn, l)) = run_ops (me_write h0 (cn, mn, l)) c).
  { rewrite <- (me_write_settled h0 h) by exact Hs. apply me_step_write.
    intros Hcap Hread. apply (Hrec cn mn l); [left | exact Hcap |].
    unfold me_reading in *. destruct (Hs l) as (_ & _ & Hme & _).
    destruct (me_var (h l)) as [s|]; [|discriminate]. cbn [option_map] in Hread.
    destruct (py_int s) eqn:Hint; [discriminate|].
    rewrite (settled_unreadable _ _ Hme Hint). cbn [option_map]. rewrite Hint.
    reflexivity. }
  rewrite (surjective_pairing (me_step (h, c) (cn, mn, l))).
  rewrite IH.
  - rewrite Hstep. reflexivity.
  - apply me_step_settled, Hs.
  - intros cn' mn' l' Hin Hcap Hread. rewrite Hstep.
    apply run_ops_is_Some. apply (Hrec cn' mn' l'); [right|..]; assumption.
Qed.

Lemma te_pass_write `{Externals} (h0 : heap) es : forall (h : heap) c,
  (forall l, settled (h0 l) (h l)) ->
  (forall cn mn l, (cn, mn, l) ∈ es -> cn = "capital_components" ->
     te_reading (h0 l) = Some None ->
     is_Some (cfg_get c "component_blueprints" mn)) ->
  snd (te_pass es (h, c)) = run_ops (flat_map (te_write h0) es) c.
Proof.
  unfold te_pass. induction es as [|[[cn mn] l] es IH]; intros h c Hs Hrec; [reflexivity|].
  cbn [foldl flat_map]. rewrite run_ops_app.
  assert (Hstep : snd (te_step (h, c) (cn, mn, l)) = run_ops (te_write h0 (cn, mn, l)) c).
  { rewrite <- (te_write_settled h0 h) by exact Hs. apply te_step_write.
    intros Hcap Hread. apply (Hrec cn mn l); [left | exact Hcap |].
    unfold te_reading in *. destruct (Hs l) as (_ & _ & _ & Hte).
    destruct (te_var (h l)) as [s|]; [|discriminate]. cbn [option_map] in Hread.
    destruct (py_int s) eqn:Hint; [discriminate|].
    rewrite (settled_unreadable _ _ Hte Hint). cbn [option_map]. rewrite Hint.
    reflexivity. }
  rewrite (surjective_pairing (te_step (h, c) (cn, mn, l))).
  rewrite IH.
  - rewrite Hstep. reflexivity.
  - apply te_step_settled, Hs.
  - intros cn' mn' l' Hin Hcap Hread. rewrite Hstep.
    apply run_ops_is_Some. apply (Hrec cn' mn' l'); [right|..]; assumption.
Qed.

Lemma capital_components_category `{Externals} :
  get_category_from_module_type "capital_components" = "capital_components".
Proof.
  unfold get_category_from_module_type. cbn.
  rewrite str_lower_ascii by reflexivity. reflexivity.
Qed.

Lemma effect_is_Some ops category nm p :
  (category, nm, p) ∈ ops -> is_Some (effect ops category nm).
Proof.
  induction ops as [|[[c0 n0] q] ops IH]; intros Hin; [inversion Hin|].
  cbn [effect]. case_decide as Hk; [eauto|]. apply IH.
  apply elem_of_cons in Hin as [Heq|Hin]; [congruence | exact Hin].
Qed.

(** After the first loop the record of a capital component exists if it
    existed before or if the entity has an ownership variable. *)
Lemma ownership_pass_ensures `{Externals} (h : heap) es c cn mn l :
  (cn, mn, l) ∈ es -> cn = "capital_components" ->
  is_Some (ownership_var (h l)) \/ is_Some (cfg_get c "component_blueprints" mn) ->
  is_Some (cfg_get (run_ops (flat_map (ownership_ops h) es) c)
             "component_blueprints" mn).
Proof.
  intros Hin -> [[ov Hov]|Hc]; [|apply run_ops_is_Some, Hc].
  rewrite run_ops_get.
  destruct (effect_is_Some (flat_map (ownership_ops h) es) "component_blueprints" mn
              (mkPatch (Some (String.eqb ov "owned")) None None None)) as [p ->];
    [|eauto].
  apply list_elem_of_In, List.in_flat_map. exists ("capital_components", mn, l).
  split; [apply list_elem_of_In, Hin|].
  unfold ownership_ops, view. rewrite capital_components_category, Hov. cbn.
  left. reflexivity.
Qed.

(** When the first loop raises for no entity and the record of every
    capital component with a text that [int] rejects is ensured, the three
    loops perform the writes [bulk_writes] of the texts before the save,
    from any settled state of the text boxes. *)
Lemma bulk_passes_writes `{Externals} (h0 h : heap) es c :
  (forall l, settled (h0 l) (h l)) ->
  (forall e, e ∈ es -> ~ ownership_step_raises h0 e) ->
  (forall e, e ∈ es -> record_ensured h0 c e) ->
  snd (te_pass es (me_pass es (h, ownership_pass h es c)))
  = run_ops (bulk_writes h0 es) c
  /\ forall l,
       settled (h0 l) (fst (te_pass es (me_pass es (h, ownership_pass h es c))) l).
Proof.
  intros Hs Hnr Hrec.
  assert (Hops : forall es', (forall e, e ∈ es' -> e ∈ es) ->
            flat_map (ownership_ops h) es' = flat_map (ownership_ops h0) es').
  { induction es' as [|e es' IH]; intros Hsub; [reflexivity|].
    cbn [flat_map]. rewrite IH by (intros e' He'; apply Hsub; right; exact He').
    rewrite (ownership_ops_settled h0 h e Hs) by (apply Hnr, Hsub; left).
    reflexivity. }
  rewrite ownership_pass_ops, Hops by auto.
  set (c1 := run_ops (flat_map (ownership_ops h0) es) c).
  assert (Hens : forall cn mn l, (cn, mn, l) ∈ es -> cn = "capital_components" ->
            me_reading (h0 l) = Some None \/ te_reading (h0 l) = Some None ->
            is_Some (cfg_get c1 "component_blueprints" mn)).
  { intros cn mn l Hin Hcap Hread. subst c1.
    apply (ownership_pass_ensures h0 es c cn mn l Hin Hcap).
    apply (Hrec (cn, mn, l) Hin Hcap Hread). }
  pose proof (me_pass_write h0 es h c1 Hs) as Hc2.
  rewrite (surjective_pairing (me_pass es (h, c1))).
  pose proof (te_pass_write h0 es (fst (me_pass es (h, c1))) (snd (me_pass es (h, c1))))
    as Hc3.
  split.
  - rewrite Hc3.
    + rewrite Hc2 by (intros cn mn l Hin Hcap Hread; eapply Hens; eauto).
      unfold bulk_writes. rewrite !run_ops_app. reflexivity.
    + apply me_pass_settled, Hs.
    + intros cn mn l Hin Hcap Hread.
      rewrite Hc2 by (intros cn' mn' l' Hin' Hcap' Hread'; eapply Hens; eauto).
      apply run_ops_is_Some. eapply Hens; eauto.
  - apply te_pass_settled, me_pass_settled, Hs.
Qed.

(** C3, amended: invoking the bulk save twice in a row yields the overlay
    that the first invocation yields, on every state in which the first loop
    raises for no listed entity (no ME or TE text that [isdigit] accepts and
    [int] rejects, on an entity whose ownership the loop writes) and every
    listed capital component with an ME or TE text that [int] rejects has an
    ownership variable or already has its record. *)
Theorem bulk_save_idempotent `{Externals} (st : BlueprintManager) :
  (forall e, e ∈ entities (discovered_modules st) ->
     ~ ownership_step_raises (objs st) e) ->
  (forall e, e ∈ entities (discovered_modules st) ->
     record_ensured (objs st) (blueprint_config st) e) ->
  blueprint_config
    (snd (update_all_ownership_values (snd (update_all_ownership_values st))))
  = blueprint_config (snd (update_all_ownership_values st)).
Proof.
  intros Hnr Hrec.
  set (es := entities (discovered_modules st)) in *.
  destruct (bulk_passes_writes (objs st) (objs st) es (blueprint_config st))
    as [Hc1 Hs1]; [intros l; apply settled_refl | exact Hnr | exact Hrec |].
  destruct (update_all_ownership_values_unfold st) as (Hh & Hc & Hdm & _).
  fold es in Hh, Hc.
  destruct (update_all_ownership_values_unfold (snd (update_all_ownership_values st)))
    as (_ & -> & _).
  rewrite Hdm, Hh, Hc. fold es.
  destruct (bulk_passes_writes (objs st)
              (fst (te_pass es
                      (me_pass es
                         (objs st, ownership_pass (objs st) es (blueprint_config st)))))
              es
              (snd (te_pass es
                      (me_pass es
                         (objs st, ownership_pass (objs st) es (blueprint_config st))))))
    as [Hc2 _]; [exact Hs1 | exact Hnr | |].
  - intros [[cn mn] l] Hin Hcap Hread.
    destruct (Hrec (cn, mn, l) Hin Hcap Hread) as [Hov|Hc0]; [left; exact Hov|].
    right. rewrite Hc1. apply run_ops_is_Some, Hc0.
  - rewrite Hc2, Hc1. apply run_ops_idem.
Qed.

(** * Instances on sample data *)

Lemma category_resolution_witness :
  (@get_category_from_module_type (cpython true) "PI Materials"
   = @str_lower (cpython true) "PI Materials"
   /\ (is_ascii "PI Materials" = true ->
       @get_category_from_module_type (cpython true) "PI Materials" = "pi materials"))
  /\ is_Some (cfg_get (blueprint_config
                (update_ship_ownership "naglfar" 1%nat "owned" sample_manager))
              "capital_ship_blueprints" "naglfar")
  /\ is_Some (cfg_get (blueprint_config
                (update_ship_ownership "rifter" 0%nat "owned" sample_manager))
              "ship_blueprints" "rifter").
Proof.
  destruct (@category_resolution (cpython true)) as (_ & _ & _ & _ & Hlow & Hcap & Hreg).
  split; [|split].
  - apply (Hlow "PI Materials"); discriminate.
  - apply (Hcap "naglfar" 1%nat "owned" sample_manager). reflexivity.
  - apply (Hreg "rifter" 0%nat "owned" sample_manager). discriminate.
Defined.

Lemma combined_lookup_witness :
  (exists l', get_ship_by_display_name_combined sample_objs sample_registry "Rifter"
              = Some l'
              /\ get_ship_by_display_name sample_objs sample_registry "Rifter" = Some l'
              /\ l' ∈ od_values (ships sample_registry)
              /\ display_name (sample_objs l') = "Rifter")
  /\ get_ship_by_display_name_combined sample_objs sample_registry "Naglfar"
     = get_capital_ship_by_display_name sample_objs sample_registry "Naglfar".
Proof.
  split.
  - apply (proj1 (combined_lookup_prefers_regular sample_objs sample_registry "Rifter")
             0%nat); [left | reflexivity].
  - apply (proj1 (proj2
             (combined_lookup_prefers_regular sample_objs sample_registry "Naglfar"))).
    change (od_values (ships sample_registry)) with [0%nat; 2%nat].
    intros l Hl. apply elem_of_cons in Hl as [->|Hl]; [discriminate|].
    apply list_elem_of_singleton in Hl as ->. discriminate.
Defined.

Lemma get_ships_by_filter_witness :
  exists out,
    get_ships_by_filter sample_objs sample_registry (Some "Caldari") (Some "All") true
    = Some out
    /\ sublist out (od_values (ships sample_registry))
    /\ forall l, l ∈ out <->
         l ∈ od_values (ships sample_registry)
         /\ (Some "Caldari" = None \/ Some "Caldari" = Some "" \/ Some "Caldari" = Some "All"
             \/ (Some "Caldari" <> None /\ faction (sample_objs l) = Some "Caldari"))
         /\ (Some "All" = None \/ Some "All" = Some "" \/ Some "All" = Some "All"
             \/ (Some "All" <> None /\ ship_type (sample_objs l) = Some "All"))
         /\ (true = true ->
             owned_status (sample_objs l) = Some (PyBool true)
             \/ exists s, owned_status (sample_objs l) = Some (PyStr s)
                          /\ py_lower s = "owned").
Proof.
  apply (get_ships_by_filter_exact sample_objs sample_registry
           (Some "Caldari") (Some "All") true).
  change (od_values (ships sample_registry)) with [0%nat; 2%nat].
  intros l Hl. apply elem_of_cons in Hl as [->|Hl]; [simpl; eauto|].
  apply list_elem_of_singleton in Hl as ->. simpl. eauto.
Defined.

Lemma reset_all_ship_ownership_witness :
  owned_status
    (objs (snd (@reset_all_ship_ownership (cpython true) sample_manager)) 2%nat)
  = Some (PyBool false)
  /\ (forall r,
        cfg_get (blueprint_config
                   (snd (@reset_all_ship_ownership (cpython true) sample_manager)))
          "ship_blueprints" "rifter" = Some r ->
        owned r = false).
Proof.
  destruct (@reset_all_ship_ownership_effect (cpython true) sample_manager)
    as (Hobj & Hship & _).
  split.
  - apply Hobj; [left | simpl; eauto].
    change ((ships (module_registry sample_manager)).*2) with [0%nat; 2%nat].
    right. left.
  - intros r. apply Hship.
    change ((ships (module_registry sample_manager)).*1) with ["rifter"; "merlin"].
    left.
Defined.

Lemma register_edit_reconcile_witness :
  let st3 :=
    @refresh_registry_if_needed (cpython true) true
      (update_ship_ownership (name (objs sample_manager 0%nat)) 0%nat "owned"
         (mkManager (objs sample_manager)
            (register_ship (objs sample_manager) 0%nat (module_registry sample_manager))
            (discovered_modules sample_manager) (blueprint_config sample_manager)
            (status_var sample_manager))) in
  get_ship (module_registry st3) (name (objs sample_manager 0%nat)) = Some 0%nat
  /\ owned_status (objs st3 0%nat) = Some (PyBool true).
Proof.
  apply (@register_edit_reconcile_owned (cpython true) sample_manager 0%nat false).
  - intros n Hin. left.
    change (ships (register_ship (objs sample_manager) 0%nat
                     (module_registry sample_manager)))
      with [("rifter", 0%nat); ("merlin", 2%nat)] in Hin.
    apply elem_of_cons in Hin as [[= ->]|Hin]; [reflexivity|].
    apply list_elem_of_singleton in Hin. discriminate.
  - intros n Hin.
    change (capital_ships (register_ship (objs sample_manager) 0%nat
                             (module_registry sample_manager)))
      with [("naglfar", 1%nat)] in Hin.
    apply list_elem_of_singleton in Hin. discriminate.
  - intros cn mn Hin. right. intros r.
    change (entities (discovered_modules sample_manager))
      with [("ships", "rifter", 0%nat); ("ships", "merlin", 2%nat);
            ("capital_ships", "naglfar", 1%nat)] in Hin.
    apply elem_of_cons in Hin as [[= -> ->]|Hin]; [vm_compute; discriminate|].
    apply elem_of_cons in Hin as [[=]|Hin].
    apply list_elem_of_singleton in Hin. discriminate.
Defined.



Lemma bulk_save_idempotent_witness :
  blueprint_config
    (snd (@update_all_ownership_values (cpython true)
            (snd (@update_all_ownership_values (cpython true) plated_manager))))
  = blueprint_config (snd (@update_all_ownership_values (cpython true) plated_manager)).
Proof.
  apply (@bulk_save_idempotent (cpython true) plated_manager).
  - change (entities (discovered_modules plated_manager))
      with [("ships", "rifter", 0%nat); ("ships", "plated", 3%nat);
            ("capital_components", "capital_armor_plates", 3%nat)].
    intros e He Hr.
    apply elem_of_cons in He as [->|He];
      [destruct Hr as (_ & _ & _ & Hrd); vm_compute in Hrd; destruct Hrd; discriminate|].
    apply elem_of_cons in He as [->|He];
      [destruct Hr as (_ & _ & Hov & _); destruct Hov; discriminate|].
    apply list_elem_of_singleton in He as ->.
    destruct Hr as (_ & Hcap & _). apply Hcap. reflexivity.
  - change (entities (discovered_modules plated_manager))
      with [("ships", "rifter", 0%nat); ("ships", "plated", 3%nat);
            ("capital_components", "capital_armor_plates", 3%nat)].
    intros e He.
    apply elem_of_cons in He as [->|He]; [intros Hcap; discriminate|].
    apply elem_of_cons in He as [->|He]; [intros Hcap; discriminate|].
    apply list_elem_of_singleton in He as ->. intros _ _. right.
    vm_compute. eauto.
Defined.


(** * Where the specification and the code part *)


(** C3: for a capital component without ownership variable whose ME and TE
    texts are not numbers, the first bulk save writes no record and the
    second one creates it. *)
Lemma bulk_save_twice_differs :
  blueprint_config
    (snd (@update_all_ownership_values (cpython true)
            (snd (@update_all_ownership_values (cpython true) plates_manager))))
  <> blueprint_config
       (snd (@update_all_ownership_values (cpython true) plates_manager)).
Proof.
  intros Heq.
  assert (Hget : cfg_get
            (blueprint_config
               (snd (@update_all_ownership_values (cpython true)
                  (snd (@update_all_ownership_values (cpython true) plates_manager)))))
            "component_blueprints" "capital_armor_plates"
          = cfg_get
              (blueprint_config
                 (snd (@update_all_ownership_values (cpython true) plates_manager)))
              "component_blueprints" "capital_armor_plates")
    by (rewrite Heq; reflexivity).
  vm_compute in Hget. discriminate.
Qed.

(** C5: an empty faction filter is no filter: the Minmatar and the Caldari
    ship are both returned, where the specification's wording selects only
    ships whose faction is the empty text. *)
Lemma empty_filter_selects_all :
  get_ships_by_filter sample_objs sample_registry (Some "") None false
  = Some [0%nat; 2%nat]
  /\ spec_ship_selected (Some "") None false (sample_objs 0%nat) = false
  /\ spec_ship_selected (Some "") None false (sample_objs 2%nat) = false.
Proof. vm_compute. auto. Qed.

(** C6: an overlay record under "ship_blueprints" whose name is not a
    registered ship keeps [owned = true] through the reset. *)
Lemma reset_keeps_unregistered_record :
  cfg_get (blueprint_config
             (snd (@reset_all_ship_ownership (cpython true) sample_manager)))
    "ship_blueprints" "ghost" = Some (mkBlueprint true false 1 2)
  /\ owned (mkBlueprint true false 1 2) <> false.
Proof. split; [vm_compute; reflexivity | discriminate]. Qed.

(** C8: a ship whose [is_capital_ship] flag is set, registered with
    [register_ship], is edited under "capital_ship_blueprints" and
    reconciled from "ship_blueprints": a record there that says unowned
    wins. *)
Lemma round_trip_capital_flag_unowned :
  let st1 := mkManager (objs stale_manager)
               (register_ship (objs stale_manager) 1%nat (module_registry stale_manager))
               (discovered_modules stale_manager) (blueprint_config stale_manager)
               (status_var stale_manager) in
  let st2 := update_ship_ownership (name (objs stale_manager 1%nat)) 1%nat "owned" st1 in
  let st3 := @refresh_registry_if_needed (cpython true) true st2 in
  owned_status (objs st3 1%nat) = Some (PyBool false).
Proof. vm_compute. reflexivity. Qed.

(** The same round trip fails for a listed ship too: [discovered_modules]
    lists the ships under the key "ships", which resolves to the category
    "ships", and a record there that says unowned is the last one that
    reconciliation reads. *)
Lemma round_trip_listed_ship_unowned :
  let st := mkManager sample_objs sample_registry [("ships", [("rifter", 0%nat)])]
              (cfg_put ∅ "ships" "rifter" (mkBlueprint false false 0 0)) "Ready" in
  let st1 := mkManager (objs st) (register_ship (objs st) 0%nat (module_registry st))
               (discovered_modules st) (blueprint_config st) (status_var st) in
  let st2 := update_ship_ownership (name (objs st 0%nat)) 0%nat "owned" st1 in
  let st3 := @refresh_registry_if_needed (cpython true) true st2 in
  cfg_get (blueprint_config st2) "ship_blueprints" "rifter"
  = Some (mkBlueprint true false 0 0)
  /\ owned_status (objs st3 0%nat) = Some (PyBool false).
Proof. vm_compute. split; reflexivity. Qed.


(** * Further properties of the registry *)

Lemma od_get_set_ne {V} (d : odict V) k v k' :
  k' <> k -> od_get (od_set d k v) k' = od_get d k'.
Proof.
  intros Hne. induction d as [|[k0 v0] d IH]; simpl.
  - destruct (String.eqb_spec k k'); [congruence | reflexivity].
  - destruct (String.eqb_spec k0 k) as [->|Hk]; simpl.
    + destruct (String.eqb_spec k k'); [congruence | reflexivity].
    + rewrite IH. reflexivity.
Qed.

Lemma od_set_keys {V} (d : odict V) k v :
  (od_set d k v).*1 = if decide (k ∈ d.*1) then d.*1 else (d.*1 ++ [k])%list.
Proof.
  induction d as [|[k0 v0] d IH].
  - cbn [od_set]. case_decide as Hin; [inversion Hin | reflexivity].
  - cbn [od_set]. rewrite (fmap_cons fst (k0, v0) d). cbn [fst].
    destruct (String.eqb_spec k0 k) as [->|Hk].
    + rewrite fmap_cons. cbn [fst]. rewrite decide_True by left. reflexivity.
    + rewrite fmap_cons, IH. cbn [fst].
      destruct (decide (k ∈ d.*1)) as [Hin|Hin].
      * rewrite decide_True by (right; exact Hin). reflexivity.
      * rewrite decide_False; [reflexivity|].
        intros Hin'. apply elem_of_cons in Hin' as [->|Hin']; auto.
Qed.

Lemma od_set_NoDup {V} (d : odict V) k v : NoDup d.*1 -> NoDup (od_set d k v).*1.
Proof.
  intros Hd. rewrite od_set_keys. case_decide as Hin; [exact Hd|].
  apply NoDup_app. split; [exact Hd|]. split.
  - intros x Hx Hx'. apply list_elem_of_singleton in Hx' as ->. auto.
  - apply NoDup_singleton.
Qed.

Lemma od_get_Some_elem {V} (d : odict V) k v : od_get d k = Some v -> (k, v) ∈ d.
Proof.
  induction d as [|[k0 v0] d IH]; simpl; [discriminate|].
  destruct (String.eqb_spec k0 k) as [->|Hk].
  - intros [= ->]. left.
  - intros Hg. right. apply IH, Hg.
Qed.

Lemma od_get_None {V} (d : odict V) k : od_get d k = None <-> k ∉ d.*1.
Proof.
  induction d as [|[k0 v0] d IH]; simpl.
  - split; [intros _ Hin; inversion Hin | reflexivity].
  - destruct (String.eqb_spec k0 k) as [->|Hk].
    + split; [discriminate|]. intros Hn. exfalso. apply Hn. left.
    + rewrite IH. rewrite not_elem_of_cons. split; [auto | intros [_ ?]; auto].
Qed.

Lemma od_elem_get {V} (d : odict V) k v :
  NoDup d.*1 -> (k, v) ∈ d -> od_get d k = Some v.
Proof.
  induction d as [|[k0 v0] d IH]; simpl; intros Hnd Hin; [inversion Hin|].
  apply NoDup_cons in Hnd as [Hk0 Hnd].
  apply elem_of_cons in Hin as [[= -> ->]|Hin].
  - rewrite String.eqb_refl. reflexivity.
  - destruct (String.eqb_spec k0 k) as [->|Hk]; [|auto].
    exfalso. apply Hk0. apply list_elem_of_fmap. exists (k, v). auto.
Qed.

(** X1: a registered ship is retrievable by its name, the registration
    replaces whatever ship had that name, and no other name and no other
    mapping of the registry changes. *)
Theorem register_ship_lookup (h : heap) (l : loc) (r : ModuleRegistry) (nm : string) :
  get_ship (register_ship h l r) nm
  = (if decide (nm = name (h l)) then Some l else get_ship r nm)
  /\ get_capital_ship (register_ship h l r) nm = get_capital_ship r nm
  /\ get_component (register_ship h l r) nm = get_component r nm
  /\ get_capital_component (register_ship h l r) nm = get_capital_component r nm.
Proof.
  split; [|repeat split].
  unfold get_ship, register_ship. cbn [ships].
  case_decide as Hn.
  - subst nm. apply od_get_set.
  - apply od_get_set_ne, Hn.
Qed.

(** X2: registering a ship under a name that is already taken keeps the
    number of registered ships; registering it under a new name adds
    exactly one. *)
Theorem register_ship_count (h : heap) (l : loc) (r : ModuleRegistry) :
  List.length (get_all_ships (register_ship h l r))
  = if decide (is_Some (get_ship r (name (h l))))
    then List.length (get_all_ships r)
    else S (List.length (get_all_ships r)).
Proof.
  unfold get_all_ships, get_ship, register_ship, od_values. cbn [ships].
  rewrite !List.length_map.
  generalize (name (h l)) as k. intros k.
  induction (ships r) as [|[k0 v0] d IH].
  - cbn [od_set od_get]. case_decide as Hs; [destruct Hs; discriminate | reflexivity].
  - cbn [od_set od_get]. destruct (String.eqb_spec k0 k) as [->|Hk].
    + rewrite decide_True by eauto. reflexivity.
    + cbn [List.length]. rewrite IH. case_decide; reflexivity.
Qed.

Lemma keyed_by_name_set h d l :
  keyed_by_name h d -> keyed_by_name h (od_set d (name (h l)) l).
Proof.
  intros [Hnd Hnames]. split; [apply od_set_NoDup, Hnd|].
  intros n l' Hin. apply od_set_elem in Hin as [[-> ->]|Hin]; [reflexivity|].
  apply Hnames, Hin.
Qed.

Lemma keyed_by_name_nil h : keyed_by_name h [].
Proof. split; [constructor | intros n l Hin; inversion Hin]. Qed.

(** X3: in a registry built by registrations over a store, every mapping
    has distinct keys, every key is the name of the entity it maps to, and
    the entities that [get_all_ships] lists are exactly those that
    [get_ship] finds under their name. *)
Theorem built_registry_keyed (h : heap) (r : ModuleRegistry) :
  built h r ->
  keyed_by_name h (ships r) /\ keyed_by_name h (capital_ships r)
  /\ keyed_by_name h (components r) /\ keyed_by_name h (capital_components r)
  /\ (forall l, l ∈ get_all_ships r <-> get_ship r (name (h l)) = Some l)
  /\ (forall l, l ∈ get_all_capital_ships r
                <-> get_capital_ship r (name (h l)) = Some l).
Proof.
  intros Hb.
  assert (Hk : keyed_by_name h (ships r) /\ keyed_by_name h (capital_ships r)
               /\ keyed_by_name h (components r)
               /\ keyed_by_name h (capital_components r)).
  { induction Hb as [|l r Hb (H1 & H2 & H3 & H4)|l r Hb (H1 & H2 & H3 & H4)
                    |l r Hb (H1 & H2 & H3 & H4)|l r Hb (H1 & H2 & H3 & H4)];
      cbn; auto using keyed_by_name_nil, keyed_by_name_set. }
  destruct Hk as (H1 & H2 & H3 & H4).
  assert (Hlist : forall d, keyed_by_name h d ->
            forall l, l ∈ od_values d <-> od_get d (name (h l)) = Some l).
  { intros d [Hnd Hnames] l. split.
    - intros Hin. apply list_elem_of_fmap in Hin as ([n l'] & -> & Hin).
      cbn. rewrite <- (Hnames _ _ Hin). apply od_elem_get; assumption.
    - intros Hg. apply od_get_Some_elem in Hg. apply list_elem_of_fmap.
      exists (name (h l), l). auto. }
  do 4 (split; [assumption|]).
  split; intros l; apply Hlist; assumption.
Qed.

Lemma add_label_spec o s x :
  x ∈ add_label o s <-> x ∈ s \/ (o = Some x /\ x <> "").
Proof.
  unfold add_label, str_truthy. destruct o as [y|]; [|naive_solver].
  destruct (String.eqb_spec y ""); simpl.
  - subst. naive_solver.
  - rewrite elem_of_union, elem_of_singleton. naive_solver.
Qed.

(** X4: in a registry built by registrations, the filter sets always hold
    the sentinel "All", never hold the empty text, and hold the faction and
    the ship type of every registered ship and capital ship that has a
    non-empty one. *)
Theorem built_registry_labels (h : heap) (r : ModuleRegistry) :
  built h r ->
  "All" ∈ factions r /\ "All" ∈ ship_types r
  /\ ("" ∉ factions r) /\ ("" ∉ ship_types r)
  /\ (forall n l f, (n, l) ∈ ships r \/ (n, l) ∈ capital_ships r ->
        faction (h l) = Some f -> f <> "" -> f ∈ factions r)
  /\ (forall n l t, (n, l) ∈ ships r \/ (n, l) ∈ capital_ships r ->
        ship_type (h l) = Some t -> t <> "" -> t ∈ ship_types r).
Proof.
  induction 1 as [|l r Hb (H1 & H2 & H3 & H4 & H5 & H6)
                  |l r Hb (H1 & H2 & H3 & H4 & H5 & H6)
                  |l r Hb (H1 & H2 & H3 & H4 & H5 & H6)
                  |l r Hb (H1 & H2 & H3 & H4 & H5 & H6)].
  - cbn. repeat split; try set_solver;
      intros n l f [Hin|Hin]; inversion Hin.
  - cbn. repeat split; rewrite ?add_label_spec; try naive_solver.
    + intros n l' f Hin Hf Hne. apply add_label_spec.
      destruct Hin as [Hin|Hin]; [|left; eapply H5; eauto].
      apply od_set_elem in Hin as [[-> ->]|Hin]; [auto | left; eapply H5; eauto].
    + intros n l' t Hin Ht Hne. apply add_label_spec.
      destruct Hin as [Hin|Hin]; [|left; eapply H6; eauto].
      apply od_set_elem in Hin as [[-> ->]|Hin]; [auto | left; eapply H6; eauto].
  - cbn. repeat split; rewrite ?add_label_spec; try naive_solver.
    + intros n l' f Hin Hf Hne. apply add_label_spec.
      destruct Hin as [Hin|Hin]; [left; eapply H5; eauto|].
      apply od_set_elem in Hin as [[-> ->]|Hin]; [auto | left; eapply H5; eauto].
    + intros n l' t Hin Ht Hne. apply add_label_spec.
      destruct Hin as [Hin|Hin]; [left; eapply H6; eauto|].
      apply od_set_elem in Hin as [[-> ->]|Hin]; [auto | left; eapply H6; eauto].
  - cbn. repeat split; auto.
  - cbn. repeat split; auto.
Qed.

(** X5: [get_factions] and [get_ship_types] return the members of the filter
    set, each once, in ascending order. *)
Theorem get_factions_sorted (r : ModuleRegistry) :
  (Sorted String.le (get_factions r) /\ NoDup (get_factions r)
   /\ forall x, x ∈ get_factions r <-> x ∈ factions r)
  /\ (Sorted String.le (get_ship_types r) /\ NoDup (get_ship_types r)
      /\ forall x, x ∈ get_ship_types r <-> x ∈ ship_types r).
Proof.
  unfold get_factions, get_ship_types.
  split; (split; [apply Sorted_merge_sort, _|]; split;
    [rewrite merge_sort_Permutation; apply NoDup_elements
    |intros x; rewrite merge_sort_Permutation; apply elem_of_elements]).
Qed.

Lemma comprehension_without_ownership h f t ls :
  comprehension h (ship_selected f t false) ls
  = Some (List.filter
            (fun l => label_passes f (faction (h l))
                      && label_passes t (ship_type (h l))) ls).
Proof.
  induction ls as [|l ls IH]; [reflexivity|].
  cbn [comprehension List.filter]. rewrite IH. unfold ship_selected.
  destruct (label_passes f (faction (h l)) && label_passes t (ship_type (h l)));
    reflexivity.
Qed.

Lemma sublist_filter {A} (p : A -> bool) (ls : list A) : sublist (List.filter p ls) ls.
Proof.
  induction ls as [|x ls IH]; [constructor|]. cbn [List.filter].
  destruct (p x); constructor; exact IH.
Qed.

Lemma filter_all {A} (ls : list A) : List.filter (fun _ => true) ls = ls.
Proof. induction ls as [|x ls IH]; [reflexivity|]. cbn. rewrite IH. reflexivity. Qed.

(** X6: with [owned_only] false the combined filter does not read
    [owned_status], so it does not raise on ships that lack the attribute
    (every ship has [faction] and [ship_type], which the filter does read);
    it returns a sublist of all ships followed by capital ships, and the
    whole of it when both filters are missing or "All". *)
Theorem combined_filter_without_ownership (h : heap) (r : ModuleRegistry)
    (f t : option string) :
  (exists out, get_ships_combined_by_filter h r f t false = Some out
               /\ sublist out (get_all_ships_combined r))
  /\ get_ships_combined_by_filter h r None None false
     = Some (get_all_ships_combined r)
  /\ get_ships_combined_by_filter h r (Some "All") (Some "All") false
     = Some (get_all_ships_combined r).
Proof.
  unfold get_ships_combined_by_filter, get_ships_by_filter,
    get_capital_ships_by_filter, get_all_ships_combined.
  rewrite !comprehension_without_ownership. split; [|split].
  - eexists. split; [reflexivity|]. apply sublist_app; apply sublist_filter.
  - cbn. rewrite !filter_all. reflexivity.
  - cbn. rewrite !filter_all. reflexivity.
Qed.

Lemma comprehension_refines h f t ls : forall owned,
  comprehension h (ship_selected f t true) ls = Some owned ->
  sublist owned
    (List.filter (fun l => label_passes f (faction (h l))
                           && label_passes t (ship_type (h l))) ls).
Proof.
  induction ls as [|l ls IH]; intros owned.
  - intros [= <-]. constructor.
  - cbn [comprehension List.filter]. unfold ship_selected at 1.
    destruct (label_passes f (faction (h l)) && label_passes t (ship_type (h l))).
    + cbn [negb]. destruct (owned_status (h l)) as [v|]; [|discriminate].
      destruct (comprehension h (ship_selected f t true) ls) as [out|];
        [|discriminate].
      intros [= <-]. destruct (is_owned_value v); constructor; apply IH; reflexivity.
    + destruct (comprehension h (ship_selected f t true) ls) as [out|];
        [|discriminate].
      intros [= <-]. apply IH. reflexivity.
Qed.

(** X7: asking for owned ships only narrows the answer: whenever the filter
    with [owned_only] returns, the same filter without it returns a list of
    which the owned ships are a sublist. *)
Theorem owned_only_narrows (h : heap) (r : ModuleRegistry) (f t : option string)
    (owned : list loc) :
  get_ships_by_filter h r f t true = Some owned ->
  exists all, get_ships_by_filter h r f t false = Some all /\ sublist owned all.
Proof.
  unfold get_ships_by_filter. intros Ho.
  rewrite comprehension_without_ownership. eexists. split; [reflexivity|].
  apply comprehension_refines, Ho.
Qed.

Lemma component_comprehension_unfiltered h ls :
  comprehension h (component_selected false) ls = Some ls.
Proof.
  induction ls as [|l ls IH]; [reflexivity|].
  cbn [comprehension]. rewrite IH. reflexivity.
Qed.

Lemma comprehension_raises h cond ls l :
  l ∈ ls -> cond (h l) = None -> comprehension h cond ls = None.
Proof.
  induction ls as [|x ls IH]; intros Hin Hl; [inversion Hin|].
  cbn [comprehension]. apply elem_of_cons in Hin as [<-|Hin].
  - rewrite Hl. reflexivity.
  - rewrite (IH Hin Hl). destruct (cond (h x)); reflexivity.
Qed.

(** X8: [get_components_by_filter] returns every component when ownership
    is not asked for; asked for, it returns exactly the components whose
    cached ownership is the boolean true or the text "owned" in any case,
    provided every component exposes [owned_status], and raises as soon as
    one component does not. *)
Theorem get_components_by_filter_exact (h : heap) (r : ModuleRegistry) :
  get_components_by_filter h r false = Some (od_values (components r))
  /\ ((forall l, l ∈ od_values (components r) -> is_Some (owned_status (h l))) ->
      exists out,
        get_components_by_filter h r true = Some out
        /\ sublist out (od_values (components r))
        /\ forall l, l ∈ out <->
             l ∈ od_values (components r)
             /\ (owned_status (h l) = Some (PyBool true)
                 \/ exists s, owned_status (h l) = Some (PyStr s)
                              /\ py_lower s = "owned"))
  /\ (forall l, l ∈ od_values (components r) -> owned_status (h l) = None ->
      get_components_by_filter h r true = None).
Proof.
  unfold get_components_by_filter. split; [|split].
  - apply component_comprehension_unfiltered.
  - intros Hexp.
    destruct (comprehension_total h (component_selected true)
                (od_values (components r))) as (out & Hout & Hsub & Hmem).
    { intros l Hl. destruct (Hexp l Hl) as [v Hv]. unfold component_selected.
      rewrite Hv. simpl. eauto. }
    exists out. split; [exact Hout|]. split; [exact Hsub|].
    intros l. rewrite Hmem. split; intros [Hl Hsel]; (split; [exact Hl|]).
    + destruct (Hexp l Hl) as [v Hv]. unfold component_selected in Hsel.
      rewrite Hv in Hsel. cbn in Hsel. injection Hsel as Hsel.
      apply is_owned_value_spec in Hsel as [->|(s & -> & Hs)]; eauto.
    + unfold component_selected. cbn.
      destruct Hsel as [->|(s & -> & Hs)]; f_equal; apply is_owned_value_spec; eauto.
  - intros l Hl Hnone. eapply comprehension_raises; [exact Hl|].
    unfold component_selected. rewrite Hnone. reflexivity.
Qed.

Lemma od_set_fresh {V} (d : odict V) k v : k ∉ d.*1 -> od_set d k v = (d ++ [(k, v)])%list.
Proof.
  induction d as [|[k0 v0] d IH]; intros Hk; [reflexivity|].
  rewrite fmap_cons in Hk. apply not_elem_of_cons in Hk as [Hne Hk].
  cbn [od_set]. cbn [fst] in Hne.
  destruct (String.eqb_spec k0 k); [congruence|]. rewrite IH by exact Hk. reflexivity.
Qed.

Lemma get_filtered_ships_fold h f t d : forall acc,
  NoDup (acc.*1 ++ d.*1) ->
  foldl (fun filtered_ships '(nm, ship) =>
           if negb (String.eqb f "All") && attr_differs (faction (h ship)) f
           then filtered_ships
           else if negb (String.eqb t "All") && attr_differs (ship_type (h ship)) t
           then filtered_ships
           else od_set filtered_ships nm ship) acc d
  = (acc ++ List.filter (filtered_keeps h f t) d)%list.
Proof.
  induction d as [|[n l] d IH]; intros acc Hnd.
  - cbn. rewrite app_nil_r. reflexivity.
  - cbn [foldl List.filter]. unfold filtered_keeps at 1. cbn [snd].
    rewrite fmap_cons in Hnd. cbn [fst] in Hnd.
    assert (Hn : n ∉ acc.*1).
    { apply NoDup_app in Hnd as (_ & Hd & _). intros Hin. apply (Hd n Hin). left. }
    assert (Hacc : NoDup (acc.*1 ++ d.*1)).
    { apply NoDup_app in Hnd as (H1 & H2 & H3). apply NoDup_cons in H3 as [_ H3].
      apply NoDup_app. split; [exact H1|]. split; [|exact H3].
      intros x Hx Hx'. apply (H2 x Hx). right. exact Hx'. }
    destruct (negb (String.eqb f "All") && attr_differs (faction (h l)) f);
      [cbn [negb andb]; apply IH, Hacc|].
    destruct (negb (String.eqb t "All") && attr_differs (ship_type (h l)) t);
      [cbn [negb andb]; apply IH, Hacc|].
    cbn [negb andb]. rewrite od_set_fresh by exact Hn. rewrite IH.
    + rewrite <- app_assoc. reflexivity.
    + rewrite fmap_app. cbn. rewrite <- app_assoc. cbn.
      apply NoDup_app in Hnd as (H1 & H2 & H3).
      apply NoDup_app. split; [exact H1|]. split; [|exact H3].
      intros x Hx Hx'. apply (H2 x Hx). exact Hx'.
Qed.

Lemma filtered_keeps_spec h f t n l :
  filtered_keeps h f t (n, l) = true
  <-> (f = "All" \/ faction (h l) = Some f) /\ (t = "All" \/ ship_type (h l) = Some t).
Proof.
  unfold filtered_keeps, attr_differs. cbn [snd].
  destruct (String.eqb_spec f "All") as [->|Hf], (String.eqb_spec t "All") as [->|Ht];
    cbn [negb andb].
  - tauto.
  - destruct (ship_type (h l)) as [a|]; cbn.
    + destruct (String.eqb_spec a t); cbn; naive_solver.
    + naive_solver.
  - destruct (faction (h l)) as [a|]; cbn.
    + destruct (String.eqb_spec a f); cbn; naive_solver.
    + naive_solver.
  - destruct (faction (h l)) as [a|], (ship_type (h l)) as [b|]; cbn;
      repeat match goal with
      | |- context [String.eqb ?x ?y] => destruct (String.eqb_spec x y); cbn
      end; naive_solver.
Qed.

Lemma filtered_keeps_label_passes h f t e :
  f <> "" -> t <> "" ->
  filtered_keeps h f t e
  = label_passes (Some f) (faction (h e.2)) && label_passes (Some t) (ship_type (h e.2)).
Proof.
  intros Hf Ht. unfold filtered_keeps, label_passes, str_truthy, attr_differs.
  apply String.eqb_neq in Hf, Ht. rewrite Hf, Ht. cbn [negb orb].
  destruct (String.eqb f "All"), (String.eqb t "All"),
    (faction (h e.2)) as [a|], (ship_type (h e.2)) as [b|]; cbn;
    repeat match goal with
    | |- context [String.eqb ?x ?y] => destruct (String.eqb x y); cbn
    end; reflexivity.
Qed.

(** X9: on a registry whose ship names are distinct, [get_filtered_ships]
    keeps exactly the ships whose faction is the one asked for or is asked
    as "All", and likewise for the ship type (the empty text is a filter
    like any other here); with "All" twice it returns every ship; and for
    non-empty filters its values are what [get_ships_by_filter] returns
    without the ownership test. *)
Theorem get_filtered_ships_exact (h : heap) (r : ModuleRegistry) (f t : string) :
  NoDup (ships r).*1 ->
  (forall n l, (n, l) ∈ get_filtered_ships h r f t <->
     (n, l) ∈ ships r
     /\ (f = "All" \/ faction (h l) = Some f)
     /\ (t = "All" \/ ship_type (h l) = Some t))
  /\ get_filtered_ships h r "All" "All" = ships r
  /\ (f <> "" -> t <> "" ->
      get_ships_by_filter h r (Some f) (Some t) false
      = Some (od_values (get_filtered_ships h r f t))).
Proof.
  intros Hnd.
  assert (Hfold : forall f t,
            get_filtered_ships h r f t = List.filter (filtered_keeps h f t) (ships r)).
  { intros f' t'. unfold get_filtered_ships.
    rewrite get_filtered_ships_fold by exact Hnd. reflexivity. }
  split; [|split].
  - intros n l. rewrite Hfold, <- filtered_keeps_spec.
    rewrite list_elem_of_In, List.filter_In, <- list_elem_of_In. reflexivity.
  - rewrite Hfold. apply filter_all.
  - intros Hf Ht. unfold get_ships_by_filter.
    rewrite comprehension_without_ownership, Hfold. f_equal.
    clear Hnd Hfold. unfold od_values.
    induction (ships r) as [|e d IH]; [reflexivity|].
    cbn [List.filter map]. rewrite (filtered_keeps_label_passes h f t e Hf Ht).
    destruct (label_passes (Some f) (faction (h e.2))
              && label_passes (Some t) (ship_type (h e.2)));
      cbn [map]; rewrite IH; reflexivity.
Qed.

(** * Further properties of the manager *)







(** X11: [validate_capital_component_me] and [validate_capital_component_te]
    store the clamped value under "component_blueprints"; a text that is not
    a number only resets the entry to "0": unlike [validate_me], nothing is
    written to the overlay. *)
Theorem validate_capital_component_effect `{Externals} (value comp_name : string)
    (st : BlueprintManager) :
  match py_int value with
  | Some v =>
      (exists r,
         cfg_get (blueprint_config (snd (validate_capital_component_me value comp_name st)))
           "component_blueprints" comp_name = Some r
         /\ me r = Z.max 0 (Z.min 10 v))
      /\ (exists r,
         cfg_get (blueprint_config (snd (validate_capital_component_te value comp_name st)))
           "component_blueprints" comp_name = Some r
         /\ te r = Z.max 0 (Z.min 20 v))
  | None =>
      validate_capital_component_me value comp_name st = ("0", st)
      /\ validate_capital_component_te value comp_name st = ("0", st)
      /\ (exists r,
            cfg_get (blueprint_config (snd (validate_me value "component_blueprints"
                                              comp_name st)))
              "component_blueprints" comp_name = Some r /\ me r = 0)
  end.
Proof.
  unfold validate_capital_component_me, validate_capital_component_te, validate_me.
  destruct (py_int value) as [v|]; cbn.
  - unfold update_blueprint_me, update_blueprint_te. rewrite !cfg_get_put_eq.
    split; eexists; (split; [reflexivity|]); cbn; apply clamp_max_min; lia.
  - split; [reflexivity|]. split; [reflexivity|].
    unfold update_blueprint_me. rewrite cfg_get_put_eq. eexists. split; reflexivity.
Qed.

Lemma owned_config_value value :
  String.eqb (if String.eqb value "owned" then "Owned" else "Unowned") "Owned"
  = String.eqb value "owned".
Proof. destruct (String.eqb value "owned"); reflexivity. Qed.

(** X12: [update_component_ownership] writes under "components" and
    [update_cap_component_ownership] under "component_blueprints", the
    categories that [get_category_from_module_type] gives for "Components"
    and "Capital Components".  Only the text "owned" means owned.
    Afterwards the overlay record and the cached [owned_status] of the
    module agree, no other object and no other record has changed, and the
    registry and [discovered_modules] are as they were. *)
Theorem update_component_ownership_effect `{Externals} (module_name : string)
    (module : loc) (value : string) (st : BlueprintManager) (capital : bool) :
  let category :=
    get_category_from_module_type
      (if capital then "Capital Components" else "Components") in
  let is_owned := String.eqb value "owned" in
  let st' :=
    if capital then update_cap_component_ownership module_name module value st
    else update_component_ownership module_name module value st in
  category = (if capital then "component_blueprints" else "components")
  /\ (forall l, objs st' l
                = if decide (l = module)
                  then set_owned_status (PyBool is_owned) (objs st module)
                  else objs st l)
  /\ (forall category' nm,
        cfg_get (blueprint_config st') category' nm
        = if decide ((category, module_name) = (category', nm))
          then Some (set_owned is_owned
                       (default default_blueprint
                          (cfg_get (blueprint_config st) category module_name)))
          else cfg_get (blueprint_config st) category' nm)
  /\ module_registry st' = module_registry st
  /\ discovered_modules st' = discovered_modules st.
Proof.
  intros category is_owned st'.
  assert (Hcat : category = if capital then "component_blueprints" else "components")
    by (subst category; destruct capital; reflexivity).
  assert (Hobjs : objs st' = upd (objs st) module
                    (set_owned_status (PyBool is_owned) (objs st module))
                  /\ blueprint_config st'
                     = update_blueprint_ownership (blueprint_config st) category
                         module_name (if is_owned then "Owned" else "Unowned")).
  { rewrite Hcat. subst st'.
    destruct capital;
      unfold update_cap_component_ownership, update_component_ownership;
      cbn [objs blueprint_config]; rewrite owned_config_value; split; reflexivity. }
  destruct Hobjs as [Ho Hc]. split; [exact Hcat|]. split; [|split; [|split]].
  - intros l. rewrite Ho. unfold upd. case_decide as Hl.
    + subst l. rewrite Nat.eqb_refl. reflexivity.
    + apply Nat.eqb_neq in Hl. rewrite Hl. reflexivity.
  - intros category' nm. rewrite Hc. unfold update_blueprint_ownership.
    rewrite cfg_get_put. subst is_owned. rewrite owned_config_value. reflexivity.
  - subst st'. destruct capital; reflexivity.
  - subst st'. destruct capital; reflexivity.
Qed.

(** X13: [update_ownership] records the new ownership in the overlay (only
    the text "owned" means owned) and never touches an object that
    [discovered_modules] does not list; the cached [owned_status] of an
    entity follows only when the entity is listed, once, under that name and
    under a key that resolves to the edited category. *)
Theorem update_ownership_effect `{Externals} (module_name category value : string)
    (st : BlueprintManager) :
  let st' := update_ownership module_name category value st in
  (exists r, cfg_get (blueprint_config st') category module_name = Some r
             /\ owned r = String.eqb value "owned")
  /\ (forall l, l ∉ (entities (discovered_modules st)).*2 -> objs st' l = objs st l)
  /\ (forall pre post cn l,
        entities (discovered_modules st) = (pre ++ (cn, module_name, l) :: post)%list ->
        l ∉ pre.*2 -> l ∉ post.*2 ->
        get_category_from_module_type cn = category ->
        is_Some (owned_status (objs st l)) ->
        owned_status (objs st' l) = Some (PyBool (String.eqb value "owned"))).
Proof.
  intros st'. subst st'. unfold update_ownership, refresh_registry_if_needed.
  cbn [objs blueprint_config with_config discovered_modules].
  split; [|split].
  - unfold update_blueprint_ownership. rewrite cfg_get_put_eq.
    eexists. split; [reflexivity|]. cbn. apply owned_config_value.
  - intros l Hl. apply refresh_discovered_frame, Hl.
  - intros pre post cn l Hes Hpre Hpost Hcat Hexp. rewrite Hes.
    rewrite refresh_discovered_app.
    change ((cn, module_name, l) :: post) with ([(cn, module_name, l)] ++ post)%list.
    rewrite refresh_discovered_app, refresh_discovered_frame by exact Hpost.
    unfold refresh_discovered at 1. cbn [foldl]. rewrite Hcat.
    unfold update_blueprint_ownership at 1. rewrite cfg_get_put_eq, upd_eq.
    rewrite refresh_discovered_frame by exact Hpre.
    destruct (refresh_module_fields false
                (owned (set_owned
                   (String.eqb (if String.eqb value "owned" then "Owned" else "Unowned")
                      "Owned")
                   (default default_blueprint
                      (cfg_get (blueprint_config st) category module_name))))
                (objs st l)) as (H1 & _).
    destruct (H1 Hexp) as [-> _]. cbn. rewrite owned_config_value. reflexivity.
Qed.

Lemma od_get_update {V} (other : odict V) : forall d k,
  NoDup other.*1 ->
  od_get (od_update d other) k
  = match od_get other k with
    | Some v => Some v
    | None => od_get d k
    end.
Proof.
  unfold od_update. induction other as [|[k0 v0] o IH]; intros d k Hnd; [reflexivity|].
  rewrite fmap_cons in Hnd. apply NoDup_cons in Hnd as [Hk0 Hnd]. cbn [fst] in Hk0.
  cbn [foldl od_get]. rewrite IH by exact Hnd.
  destruct (String.eqb_spec k0 k) as [->|Hne].
  - apply od_get_None in Hk0. rewrite Hk0. apply od_get_set.
  - rewrite od_get_set_ne by congruence. reflexivity.
Qed.

(** X14: in the combined dictionary of the ships tab a name held by both a
    regular and a capital ship maps to the capital ship; every other name
    maps as in its own dictionary, and a missing dictionary counts as
    empty. *)
Theorem get_combined_ships_dict_lookup (st : BlueprintManager) (nm : string) :
  (forall d, od_get (discovered_modules st) "ships" = Some d -> NoDup d.*1) ->
  (forall d, od_get (discovered_modules st) "capital_ships" = Some d -> NoDup d.*1) ->
  od_get (get_combined_ships_dict st) nm
  = match od_get (discovered_modules st) "capital_ships" ≫= (fun d => od_get d nm) with
    | Some capital => Some capital
    | None => od_get (discovered_modules st) "ships" ≫= (fun d => od_get d nm)
    end.
Proof.
  intros Hs Hc. unfold get_combined_ships_dict.
  destruct (od_get (discovered_modules st) "ships") as [s|] eqn:Es;
    destruct (od_get (discovered_modules st) "capital_ships") as [c|] eqn:Ec; cbn.
  - rewrite od_get_update by (apply Hc; reflexivity).
    destruct (od_get c nm); [reflexivity|].
    rewrite od_get_update by (apply Hs; reflexivity).
    destruct (od_get s nm); reflexivity.
  - rewrite od_get_update by (apply Hs; reflexivity).
    destruct (od_get s nm); reflexivity.
  - rewrite od_get_update by (apply Hc; reflexivity).
    destruct (od_get c nm); reflexivity.
  - reflexivity.
Qed.

Lemma reset_all_config_get `{Externals} st category nm :
  cfg_get (blueprint_config (snd (reset_all_ship_ownership st))) category nm
  = if decide ((category = "ship_blueprints"
                /\ nm ∈ (ships (module_registry st)).*1)
               \/ (category = "capital_ship_blueprints"
                   /\ nm ∈ (capital_ships (module_registry st)).*1))
    then set_owned false <$> cfg_get (blueprint_config st) category nm
    else cfg_get (blueprint_config st) category nm.
Proof.
  destruct (reset_all_ship_ownership_unfold st) as (_ & -> & _).
  rewrite !reset_ships_config.
  repeat case_decide; try reflexivity; exfalso; naive_solver.
Qed.

Lemma reset_all_objs `{Externals} st l :
  objs (snd (reset_all_ship_ownership st)) l
  = if decide ((l ∈ (ships (module_registry st)).*2
                \/ l ∈ (capital_ships (module_registry st)).*2)
               /\ is_Some (owned_status (objs st l)))
    then set_owned_status (PyBool false) (objs st l)
    else objs st l.
Proof.
  destruct (reset_all_ship_ownership_unfold st) as (-> & _).
  rewrite !reset_ships_objs.
  destruct (decide (l ∈ (ships (module_registry st)).*2
                    /\ is_Some (owned_status (objs st l)))) as [[Hs Ho]|Hn].
  - destruct (decide (_ /\ _)) as [_|_];
      (destruct (decide (_ /\ _)) as [_|Hn]; [reflexivity | exfalso; apply Hn; auto]).
  - destruct (decide (l ∈ (capital_ships (module_registry st)).*2 /\ _)) as [[Hc Ho]|Hn'];
      (destruct (decide (_ /\ _)) as [Hy|Hy]; [|]);
      try reflexivity; exfalso; naive_solver.
Qed.

Lemma reset_all_categories `{Externals} st category :
  is_Some (blueprint_config (snd (reset_all_ship_ownership st)) !! category)
  <-> is_Some (blueprint_config st !! category).
Proof.
  destruct (reset_all_ship_ownership_unfold st) as (_ & -> & _).
  rewrite !reset_ships_category. reflexivity.
Qed.

Lemma reset_all_registry `{Externals} st :
  module_registry (snd (reset_all_ship_ownership st)) = module_registry st.
Proof.
  unfold reset_all_ship_ownership. destruct (reset_ships _ _ _) as [h c]. reflexivity.
Qed.

(** X15: [reset_all_ship_ownership] neither creates nor deletes an overlay
    record, and resetting twice is the same as resetting once, for the
    overlay and for every object. *)
Theorem reset_all_ship_ownership_idempotent `{Externals} (st : BlueprintManager) :
  let st1 := snd (reset_all_ship_ownership st) in
  let st2 := snd (reset_all_ship_ownership st1) in
  (forall category nm,
     is_Some (cfg_get (blueprint_config st1) category nm)
     <-> is_Some (cfg_get (blueprint_config st) category nm))
  /\ blueprint_config st2 = blueprint_config st1
  /\ forall l, objs st2 l = objs st1 l.
Proof.
  intros st1 st2. split; [|split].
  - intros category nm. subst st1. rewrite reset_all_config_get.
    case_decide; [rewrite fmap_is_Some|]; reflexivity.
  - apply cfg_ext.
    + intros category. subst st2. rewrite reset_all_categories. reflexivity.
    + intros category nm. subst st2. rewrite reset_all_config_get.
      subst st1. rewrite reset_all_registry, reset_all_config_get.
      case_decide; [|reflexivity].
      destruct (cfg_get (blueprint_config st) category nm) as [[]|]; reflexivity.
  - intros l. subst st2. rewrite reset_all_objs.
    subst st1. rewrite reset_all_registry, reset_all_objs.
    destruct (decide ((l ∈ (ships (module_registry st)).*2
                       \/ l ∈ (capital_ships (module_registry st)).*2)
                      /\ is_Some (owned_status (objs st l)))) as [Hd|Hd].
    + case_decide; reflexivity.
    + case_decide as Hd'; [|reflexivity]. exfalso. apply Hd. exact Hd'.
Qed.

Lemma grows_within_refl `{Externals} es c : grows_within es c c.
Proof. intros category nm. split; auto. Qed.

Lemma grows_within_trans `{Externals} es1 es2 c1 c2 c3 :
  grows_within es1 c1 c2 -> grows_within es2 c2 c3 ->
  grows_within (es1 ++ es2) c1 c3.
Proof.
  intros H12 H23 category nm.
  destruct (H12 category nm) as [Ha Hb], (H23 category nm) as [Hc Hd]. split; [auto|].
  intros H3. destruct (Hd H3) as [H2|(cn & l & Hin & ->)].
  - destruct (Hb H2) as [?|(cn & l & Hin & ->)]; [auto|].
    right. exists cn, l. split; [apply elem_of_app; auto | reflexivity].
  - right. exists cn, l. split; [apply elem_of_app; auto | reflexivity].
Qed.

Lemma grows_within_put `{Externals} cn mn l r c :
  grows_within [(cn, mn, l)] c (cfg_put c (efficiency_category cn) mn r).
Proof.
  intros category nm. rewrite cfg_get_put. case_decide as Hk.
  - injection Hk as <- <-. split; [eauto|]. intros _. right.
    exists cn, l. split; [left | reflexivity].
  - split; auto.
Qed.

Ltac grows_step cn :=
  repeat match goal with
  | |- grows_within _ ?c ?c => apply grows_within_refl
  | |- grows_within _ _ (if ?b then _ else _) => destruct b eqn:?
  | |- grows_within _ _ (match ?x with _ => _ end) => destruct x eqn:?
  | H : String.eqb cn "capital_components" = true
    |- grows_within _ _ (cfg_put _ "component_blueprints" _ _) =>
      rewrite <- (efficiency_category_capital cn H); apply grows_within_put
  | H : String.eqb cn "capital_components" = false
    |- grows_within _ _ (cfg_put _ (get_category_from_module_type cn) _ _) =>
      rewrite <- (efficiency_category_other cn H); apply grows_within_put
  end.

Lemma ownership_step_grows `{Externals} h c cn mn l :
  grows_within [(cn, mn, l)] c (ownership_step h c (cn, mn, l)).
Proof. unfold ownership_step. grows_step cn. Qed.

Lemma me_step_grows `{Externals} h c cn mn l :
  grows_within [(cn, mn, l)] c (snd (me_step (h, c) (cn, mn, l))).
Proof.
  unfold me_step, update_blueprint_me.
  destruct (me_var (h l)) as [s|]; [|apply grows_within_refl].
  destruct (py_int s) as [v|].
  - destruct (Z.ltb_spec v 0); cbv beta iota;
      destruct (String.eqb cn "capital_components") eqn:?; cbn [snd]; grows_step cn.
  - cbv beta iota zeta.
    destruct (String.eqb cn "capital_components") eqn:?; cbn [snd]; grows_step cn.
Qed.

Lemma te_step_grows `{Externals} h c cn mn l :
  grows_within [(cn, mn, l)] c (snd (te_step (h, c) (cn, mn, l))).
Proof.
  unfold te_step, update_blueprint_te.
  destruct (te_var (h l)) as [s|]; [|apply grows_within_refl].
  destruct (py_int s) as [v|].
  - destruct (Z.ltb_spec v 0); cbv beta iota;
      destruct (String.eqb cn "capital_components") eqn:?; cbn [snd]; grows_step cn.
  - cbv beta iota zeta.
    destruct (String.eqb cn "capital_components") eqn:?; cbn [snd]; grows_step cn.
Qed.

Lemma ownership_pass_grows `{Externals} h es : forall c,
  grows_within es c (ownership_pass h es c).
Proof.
  unfold ownership_pass. induction es as [|[[cn mn] l] es IH]; intros c; cbn [foldl].
  - apply grows_within_refl.
  - apply (grows_within_trans [(cn, mn, l)] es _ _ _ (ownership_step_grows h c cn mn l)).
    apply IH.
Qed.

Lemma me_pass_grows `{Externals} es : forall h c,
  grows_within es c (snd (me_pass es (h, c))).
Proof.
  unfold me_pass. induction es as [|[[cn mn] l] es IH]; intros h c; cbn [foldl].
  - apply grows_within_refl.
  - pose proof (me_step_grows h c cn mn l) as Hs.
    destruct (me_step (h, c) (cn, mn, l)) as [h1 c1].
    apply (grows_within_trans [(cn, mn, l)] es _ _ _ Hs). apply IH.
Qed.

Lemma te_pass_grows `{Externals} es : forall h c,
  grows_within es c (snd (te_pass es (h, c))).
Proof.
  unfold te_pass. induction es as [|[[cn mn] l] es IH]; intros h c; cbn [foldl].
  - apply grows_within_refl.
  - pose proof (te_step_grows h c cn mn l) as Hs.
    destruct (te_step (h, c) (cn, mn, l)) as [h1 c1].
    apply (grows_within_trans [(cn, mn, l)] es _ _ _ Hs). apply IH.
Qed.

(** X16: a bulk save never deletes an overlay record, whatever the texts
    are, and every record it creates is for a listed entity: it has the
    entity's name and the category that the entity's key resolves to
    ("component_blueprints" for the key "capital_components"). *)
Theorem bulk_save_keeps_records `{Externals} (st : BlueprintManager)
    (category nm : string) :
  let c' := blueprint_config (snd (update_all_ownership_values st)) in
  (is_Some (cfg_get (blueprint_config st) category nm) ->
   is_Some (cfg_get c' category nm))
  /\ (is_Some (cfg_get c' category nm) ->
      is_Some (cfg_get (blueprint_config st) category nm)
      \/ exists cn l, (cn, nm, l) ∈ entities (discovered_modules st)
                      /\ category = efficiency_category cn).
Proof.
  intros c'. subst c'.
  destruct (update_all_ownership_values_unfold st) as (_ & -> & _).
  set (es := entities (discovered_modules st)).
  assert (Hg : grows_within (es ++ es ++ es) (blueprint_config st)
                 (snd (te_pass es (me_pass es
                    (objs st, ownership_pass (objs st) es (blueprint_config st)))))).
  { eapply grows_within_trans; [apply ownership_pass_grows|].
    pose proof (me_pass_grows es (objs st)
                  (ownership_pass (objs st) es (blueprint_config st))) as Hm.
    destruct (me_pass es _) as [h2 c2]. cbn [snd] in Hm.
    eapply grows_within_trans; [exact Hm | apply te_pass_grows]. }
  destruct (Hg category nm) as [Hkeep Hnew]. split; [exact Hkeep|].
  intros Hs. destruct (Hnew Hs) as [?|(cn & l & Hin & ->)]; [auto|].
  right. exists cn, l. split; [|reflexivity].
  rewrite !elem_of_app in Hin. tauto.
Qed.

(** X17: when every cached ME and TE text is an integer literal, a bulk save
    leaves, for an entity that has the three variables and that alone is
    listed under its category and name, the record that mirrors it: [owned]
    says whether the ownership variable reads "owned", [me] and [te] are the
    texts' values with negative ones raised to 0, and [invented] is the
    invention variable (false without one), or, for a capital component,
    what the record held before (false for a new record). *)
Theorem bulk_save_stores_entity `{Externals} (st : BlueprintManager)
    (pre post : list (string * string * loc)) (cn mn : string) (l : loc)
    (ov sm s_t : string) (vm vt : Z) :
  (forall e, e ∈ entities (discovered_modules st) -> numeric_texts (objs st e.2)) ->
  entities (discovered_modules st) = (pre ++ (cn, mn, l) :: post)%list ->
  (forall e, e ∈ (pre ++ post)%list ->
     (efficiency_category e.1.1, e.1.2) <> (efficiency_category cn, mn)) ->
  get_category_from_module_type cn <> "" ->
  ownership_var (objs st l) = Some ov ->
  me_var (objs st l) = Some sm -> py_int sm = Some vm ->
  te_var (objs st l) = Some s_t -> py_int s_t = Some vt ->
  exists r,
    cfg_get (blueprint_config (snd (update_all_ownership_values st)))
      (efficiency_category cn) mn = Some r
    /\ owned r = String.eqb ov "owned"
    /\ me r = Z.max 0 vm
    /\ te r = Z.max 0 vt
    /\ invented r
       = if String.eqb cn "capital_components"
         then invented (default default_blueprint
                          (cfg_get (blueprint_config st) "component_blueprints" mn))
         else default false (invented_var (objs st l)).
Proof.
  intros Hnum Hes Hother Hcat Hov Hme Hvm Hte Hvt.
  destruct (update_all_ownership_values_ops st Hnum) as [-> _].
  rewrite Hes. unfold bulk_ops. rewrite !run_ops_app, !run_ops_get.
  rewrite !effect_flat_map
    by (first [exact Hother | intros e' o Ho; apply (entity_ops_key (objs st) e' o); auto]).
  assert (Hte_ops : te_ops (objs st) (cn, mn, l)
                    = [(efficiency_category cn, mn,
                        mkPatch None None None (Some (Z.max 0 vt)))]).
  { unfold te_ops, view, te_reading. rewrite Hte. cbn [option_map].
    rewrite Hvt. reflexivity. }
  assert (Hme_ops : me_ops (objs st) (cn, mn, l)
                    = [(efficiency_category cn, mn,
                        mkPatch None None (Some (Z.max 0 vm)) None)]).
  { unfold me_ops, view, me_reading. rewrite Hme. cbn [option_map].
    rewrite Hvm. reflexivity. }
  rewrite Hte_ops, Hme_ops, !effect_singleton.
  assert (Hrm : exists a, read_digits (me_var (objs st l)) = Some a).
  { rewrite Hme. unfold read_digits. rewrite Hvm. destruct (py_isdigit sm); eauto. }
  assert (Hrt : exists b, read_digits (te_var (objs st l)) = Some b).
  { rewrite Hte. unfold read_digits. rewrite Hvt. destruct (py_isdigit s_t); eauto. }
  destruct Hrm as [a Ha], Hrt as [b Hb].
  apply String.eqb_neq in Hcat.
  unfold ownership_ops, view. rewrite Hov, Ha, Hb, Hcat.
  destruct (String.eqb cn "capital_components") eqn:Hcap.
  - rewrite <- (efficiency_category_capital cn Hcap), effect_singleton.
    eexists. split; [reflexivity|]. cbn. auto.
  - rewrite <- (efficiency_category_other cn Hcap), effect_singleton.
    eexists. split; [reflexivity|]. cbn. auto.
Qed.

Lemma refresh_ships_app c category (d1 d2 : odict loc) h :
  refresh_ships c category (d1 ++ d2)%list h
  = refresh_ships c category d2 (refresh_ships c category d1 h).
Proof. unfold refresh_ships. apply foldl_app. Qed.

Lemma refresh_ships_frame c category d : forall h l,
  l ∉ d.*2 -> refresh_ships c category d h l = h l.
Proof.
  unfold refresh_ships.
  induction d as [|[n0 l0] d IH]; intros h l Hl; [reflexivity|].
  cbn [foldl]. rewrite fmap_cons in Hl. apply not_elem_of_cons in Hl as [Hne Hl].
  rewrite IH by exact Hl.
  destruct (cfg_get c category n0); [|reflexivity]. apply upd_ne. exact Hne.
Qed.

(** X18: on initial load the read path gives a registered ship the [owned]
    value of its "ship_blueprints" record, creating [owned_status] if the
    object had none, and leaves a ship without record as it was; when it is
    not the initial load the registry mappings are not read at all.  The
    ship is one that only the ships mapping references, once. *)
Theorem initial_load_mirrors_ship `{Externals} (st : BlueprintManager)
    (pre post : odict loc) (nm : string) (l : loc) :
  ships (module_registry st) = (pre ++ (nm, l) :: post)%list ->
  l ∉ pre.*2 -> l ∉ post.*2 ->
  l ∉ (capital_ships (module_registry st)).*2 ->
  l ∉ (entities (discovered_modules st)).*2 ->
  objs (refresh_registry_if_needed true st) l
  = match cfg_get (blueprint_config st) "ship_blueprints" nm with
    | Some r => set_owned_status (PyBool (owned r)) (objs st l)
    | None => objs st l
    end
  /\ objs (refresh_registry_if_needed false st) l = objs st l.
Proof.
  intros Hships Hpre Hpost Hcap Hdm. unfold refresh_registry_if_needed. cbn [objs].
  rewrite !refresh_discovered_frame by exact Hdm. split; [|reflexivity].
  rewrite refresh_ships_frame by exact Hcap. rewrite Hships.
  rewrite refresh_ships_app.
  change ((nm, l) :: post) with ([(nm, l)] ++ post)%list.
  rewrite refresh_ships_app, refresh_ships_frame by exact Hpost.
  unfold refresh_ships at 1. cbn [foldl].
  destruct (cfg_get (blueprint_config st) "ship_blueprints" nm) as [r|].
  - rewrite upd_eq, refresh_ships_frame by exact Hpre. reflexivity.
  - apply refresh_ships_frame, Hpre.
Qed.

(** * Further instances on sample data *)

Lemma sample_registry_built : built sample_objs sample_registry.
Proof. unfold sample_registry. repeat constructor. Qed.

Lemma built_registry_keyed_witness :
  keyed_by_name sample_objs (ships sample_registry)
  /\ forall l, l ∈ get_all_ships sample_registry
               <-> get_ship sample_registry (name (sample_objs l)) = Some l.
Proof.
  destruct (built_registry_keyed sample_objs sample_registry)
    as (H1 & _ & _ & _ & H5 & _).
  - unfold sample_registry. repeat constructor.
  - split; assumption.
Defined.

Lemma built_registry_labels_witness :
  "All" ∈ factions sample_registry /\ "Caldari" ∈ factions sample_registry.
Proof.
  destruct (built_registry_labels sample_objs sample_registry)
    as (H1 & _ & _ & _ & H5 & _).
  - unfold sample_registry. repeat constructor.
  - split; [exact H1|].
    apply (H5 "merlin" 2%nat "Caldari"); [|reflexivity|discriminate].
    left. change (ships sample_registry) with [("rifter", 0%nat); ("merlin", 2%nat)].
    right. left.
Defined.

Lemma owned_only_narrows_witness :
  exists all,
    get_ships_by_filter sample_objs sample_registry (Some "Caldari") None false
    = Some all
    /\ sublist [2%nat] all.
Proof.
  apply (owned_only_narrows sample_objs sample_registry (Some "Caldari") None [2%nat]).
  reflexivity.
Defined.

Lemma get_components_by_filter_witness :
  (exists out, get_components_by_filter sample_objs parts_registry true = Some out)
  /\ get_components_by_filter sample_objs
       (register_component sample_objs 4%nat parts_registry) true = None.
Proof.
  split.
  - destruct (get_components_by_filter_exact sample_objs parts_registry) as (_ & H2 & _).
    destruct H2 as (out & Hout & _); [|exists out; exact Hout].
    change (od_values (components parts_registry)) with [5%nat; 3%nat].
    intros l Hl. apply elem_of_cons in Hl as [->|Hl]; [cbn; eauto|].
    apply list_elem_of_singleton in Hl as ->. cbn. eauto.
  - destruct (get_components_by_filter_exact sample_objs
                (register_component sample_objs 4%nat parts_registry)) as (_ & _ & H3).
    apply (H3 4%nat); [|reflexivity].
    change (od_values (components (register_component sample_objs 4%nat parts_registry)))
      with [5%nat; 3%nat; 4%nat].
    right. right. left.
Defined.

Lemma sample_ship_names_distinct : NoDup (ships sample_registry).*1.
Proof.
  change ((ships sample_registry).*1) with ["rifter"; "merlin"].
  apply NoDup_cons. split.
  - intros Hin. apply list_elem_of_singleton in Hin. discriminate.
  - apply NoDup_singleton.
Qed.

Lemma get_filtered_ships_witness :
  get_filtered_ships sample_objs sample_registry "All" "All" = ships sample_registry
  /\ get_ships_by_filter sample_objs sample_registry (Some "Minmatar") (Some "All") false
     = Some (od_values (get_filtered_ships sample_objs sample_registry "Minmatar" "All")).
Proof.
  destruct (get_filtered_ships_exact sample_objs sample_registry "Minmatar" "All"
              sample_ship_names_distinct) as (_ & H2 & H3).
  split; [exact H2|]. apply H3; discriminate.
Defined.


Lemma update_ownership_witness :
  owned_status (objs (@update_ownership (cpython true) "rifter" "ships" "owned" sample_manager) 0%nat)
  = Some (PyBool true)
  /\ objs (@update_ownership (cpython true) "rifter" "ships" "owned" sample_manager) 7%nat
     = objs sample_manager 7%nat.
Proof.
  destruct (@update_ownership_effect (cpython true) "rifter" "ships" "owned" sample_manager)
    as (_ & Hframe & Hmirror).
  change (entities (discovered_modules sample_manager))
    with [("ships", "rifter", 0%nat); ("ships", "merlin", 2%nat);
          ("capital_ships", "naglfar", 1%nat)] in *.
  split.
  - apply (Hmirror [] [("ships", "merlin", 2%nat); ("capital_ships", "naglfar", 1%nat)]
             "ships" 0%nat).
    + reflexivity.
    + intros Hin. inversion Hin.
    + cbn. intros Hin. apply elem_of_cons in Hin as [Hin|Hin]; [discriminate|].
      apply list_elem_of_singleton in Hin. discriminate.
    + reflexivity.
    + cbn. eauto.
  - apply Hframe. cbn. intros Hin.
    repeat (apply elem_of_cons in Hin as [Hin|Hin]; [discriminate|]).
    inversion Hin.
Defined.

Lemma get_combined_ships_dict_witness :
  od_get (get_combined_ships_dict sample_manager) "naglfar"
  = match od_get (discovered_modules sample_manager) "capital_ships"
          ≫= (fun d => od_get d "naglfar") with
    | Some capital => Some capital
    | None => od_get (discovered_modules sample_manager) "ships"
                ≫= (fun d => od_get d "naglfar")
    end.
Proof.
  apply (get_combined_ships_dict_lookup sample_manager "naglfar").
  - intros d [= <-]. cbn. apply NoDup_cons. split.
    + intros Hin. apply list_elem_of_singleton in Hin. discriminate.
    + apply NoDup_singleton.
  - intros d [= <-]. cbn. apply NoDup_singleton.
Defined.

Lemma bulk_save_keeps_records_witness :
  is_Some (cfg_get
             (blueprint_config
                (snd (@update_all_ownership_values (cpython true) sample_manager)))
             "ship_blueprints" "ghost").
Proof.
  apply (proj1 (@bulk_save_keeps_records (cpython true) sample_manager
                  "ship_blueprints" "ghost")).
  exists (mkBlueprint true false 1 2). vm_compute. reflexivity.
Defined.

Lemma bulk_save_stores_entity_witness :
  exists r,
    cfg_get (blueprint_config
               (snd (@update_all_ownership_values (cpython true) sample_manager)))
      (@efficiency_category (cpython true) "ships") "rifter" = Some r
    /\ owned r = String.eqb "owned" "owned"
    /\ me r = Z.max 0 15
    /\ te r = Z.max 0 (-3)
    /\ invented r
       = if String.eqb "ships" "capital_components"
         then invented (default default_blueprint
                          (cfg_get (blueprint_config sample_manager)
                             "component_blueprints" "rifter"))
         else default false (invented_var (objs sample_manager 0%nat)).
Proof.
  apply (@bulk_save_stores_entity (cpython true) sample_manager []
           [("ships", "merlin", 2%nat); ("capital_ships", "naglfar", 1%nat)]
           "ships" "rifter" 0%nat "owned" "15" "-3" 15 (-3)).
  - change (entities (discovered_modules sample_manager))
      with [("ships", "rifter", 0%nat); ("ships", "merlin", 2%nat);
            ("capital_ships", "naglfar", 1%nat)].
    intros e He.
    apply elem_of_cons in He as [->|He]; [split; vm_compute; discriminate|].
    apply elem_of_cons in He as [->|He]; [split; vm_compute; discriminate|].
    apply list_elem_of_singleton in He as ->. split; vm_compute; discriminate.
  - reflexivity.
  - cbn [app]. intros e He.
    apply elem_of_cons in He as [->|He]; [vm_compute; discriminate|].
    apply list_elem_of_singleton in He as ->. vm_compute. discriminate.
  - vm_compute. discriminate.
  - reflexivity.
  - reflexivity.
  - reflexivity.
  - reflexivity.
  - reflexivity.
Defined.

Lemma initial_load_mirrors_ship_witness :
  objs (@refresh_registry_if_needed (cpython true) true registry_manager) 0%nat
  = match cfg_get (blueprint_config registry_manager) "ship_blueprints" "rifter" with
    | Some r => set_owned_status (PyBool (owned r)) (objs registry_manager 0%nat)
    | None => objs registry_manager 0%nat
    end
  /\ objs (@refresh_registry_if_needed (cpython true) false registry_manager) 0%nat
     = objs registry_manager 0%nat.
Proof.
  apply (@initial_load_mirrors_ship (cpython true) registry_manager [] [("merlin", 2%nat)]
           "rifter" 0%nat).
  - reflexivity.
  - intros Hin. inversion Hin.
  - cbn. intros Hin. apply list_elem_of_singleton in Hin. discriminate.
  - change ((capital_ships (module_registry registry_manager)).*2) with [1%nat].
    intros Hin. apply list_elem_of_singleton in Hin. discriminate.
  - intros Hin. inversion Hin.
Defined.
